(** * Flower: the FedAdagrad strategy and the CIFAR baseline server

    A shallow embedding of

    - [src/py/flwr/server/strategy/fedadagrad.py] (class [FedAdagrad]), and
    - [src/flower_benchmark/cifar/server.py] ([main], [get_on_fit_config_fn]),

    together with the properties of these two files that the specification
    states.  Python exceptions are values of [Py.exn]; a method that mutates
    [self] is a function from the object to an outcome and the object
    afterwards.  A numpy array is modelled by its sequence of elements (a
    one-dimensional array; an array of several dimensions is not modelled)
    over an element type given by a [Dtype]; the element type of the
    properties is IEEE binary64 (numpy's [float64], through the kernel's
    primitive floats). *)

From Stdlib Require Import ZArith Floats.
From stdpp Require Import gmap strings list pretty.

Local Open Scope string_scope.

(** Decimal literals such as [0.1] denote the nearest binary64 value, in
    Python as here. *)
#[local] Set Warnings "-inexact-float".

(* ================================================================= *)
(** ** Python values that raise *)

Module Py.

Inductive exn : Type :=
| IndexError (msg : string)
| ValueError (msg : string)
| TypeError (msg : string)
| UnboundLocalError (msg : string).

Inductive outcome (A : Type) : Type :=
| Return (a : A)
| Raise (e : exn).
Arguments Return {A} a.
Arguments Raise {A} e.

Definition bind {A B} (m : outcome A) (k : A -> outcome B) : outcome B :=
  match m with
  | Return a => k a
  | Raise e => Raise e
  end.

(** [l[i]] for a list and an index [i >= 0]. *)
Definition getitem {A} (l : list A) (i : nat) : outcome A :=
  match l !! i with
  | Some x => Return x
  | None => Raise (IndexError "list index out of range")
  end.

(** A method body: it reads and writes the object [S] it is called on, and
    returns or raises. An exception leaves the object as the statements
    executed so far have made it. *)
Definition method (S A : Type) : Type := S -> outcome A * S.

Definition ret {S A} (a : A) : method S A := fun s => (Return a, s).

Definition raise {S A} (e : exn) : method S A := fun s => (Raise e, s).

Definition seq {S A B} (m : method S A) (k : A -> method S B) : method S B :=
  fun s =>
    match m s with
    | (Return a, s') => k a s'
    | (Raise e, s') => (Raise e, s')
    end.

(** An expression that does not write the object. *)
Definition expr {S A} (e : S -> outcome A) : method S A := fun s => (e s, s).

Definition assign {S} (f : S -> S) : method S unit := fun s => (Return tt, f s).

End Py.

Import Py.

(** [x <- m ;; k] runs the statement [m] on the object and goes on with [k];
    [try x <- e ;; k] evaluates the expression [e] and goes on with [k]. In
    both an exception ends the computation. *)
Notation "x <- m ;; k" := (Py.seq m (fun x => k))
  (at level 100, m at next level, right associativity).
Notation "m ;;; k" := (Py.seq m (fun _ => k))
  (at level 100, right associativity).
Notation "'try' x <- m ;; k" := (Py.bind m (fun x => k))
  (at level 100, x name, m at next level, right associativity).

(* ================================================================= *)
(** ** numpy arrays *)

(** The element type of an array with the operations the strategy uses on
    it. [nonzero x] is Python's [bool(x)]; [of_int] converts a Python [int]. *)
Class Dtype (F : Type) : Type := {
  zero : F;
  add : F -> F -> F;
  subtract : F -> F -> F;
  multiply : F -> F -> F;
  divide : F -> F -> F;
  sqrt_ : F -> F;
  nonzero : F -> bool;
  of_int : Z -> F
}.

(** [numpy.float64]. *)
#[export] Instance float64 : Dtype float := {
  zero := 0%float;
  add := PrimFloat.add;
  subtract := PrimFloat.sub;
  multiply := PrimFloat.mul;
  divide := PrimFloat.div;
  sqrt_ := PrimFloat.sqrt;
  nonzero x := negb (PrimFloat.eqb x 0%float);
  of_int z := SF2Prim (binary_normalize prec emax z 0 false)
}.

(** A one-dimensional array: its elements in order. *)
Abbreviation ndarray := list.

Module np.
Section Ndarray.
Context {F : Type} `{Dtype F}.

Definition broadcast_error : exn :=
  ValueError "operands could not be broadcast together".

Definition ambiguous_error : exn :=
  ValueError "The truth value of an array with more than one element is ambiguous. Use a.any() or a.all()".

(** An elementwise binary operation with numpy's broadcasting: equal
    lengths go element by element, an array of one element is stretched
    over the other, anything else is refused ([None]). *)
Definition broadcast (op : F -> F -> F) (a b : ndarray F) : option (ndarray F) :=
  if decide (length a = length b) then Some (zip_with op a b)
  else match a, b with
       | [x], _ => Some (op x <$> b)
       | _, [y] => Some ((fun x => op x y) <$> a)
       | _, _ => None
       end.

Definition ufunc2 (op : F -> F -> F) (a b : ndarray F) : outcome (ndarray F) :=
  match broadcast op a b with
  | Some c => Return c
  | None => Raise broadcast_error
  end.

(** [a + b], [a - b], [a / b], [np.multiply(a, b)] on arrays. *)
Definition nd_add : ndarray F -> ndarray F -> outcome (ndarray F) := ufunc2 add.
Definition nd_sub : ndarray F -> ndarray F -> outcome (ndarray F) := ufunc2 subtract.
Definition nd_truediv : ndarray F -> ndarray F -> outcome (ndarray F) := ufunc2 divide.
Definition np_multiply : ndarray F -> ndarray F -> outcome (ndarray F) := ufunc2 multiply.

(** [x * a] and [a + x], [a * x], [a / x] for a Python float [x]. *)
Definition scalar_mul (x : F) (a : ndarray F) : ndarray F := multiply x <$> a.
Definition add_scalar (a : ndarray F) (x : F) : ndarray F := (fun y => add y x) <$> a.
Definition mul_scalar (a : ndarray F) (x : F) : ndarray F := (fun y => multiply y x) <$> a.
Definition div_scalar (a : ndarray F) (x : F) : ndarray F := (fun y => divide y x) <$> a.

Definition np_sqrt (a : ndarray F) : ndarray F := sqrt_ <$> a.

Definition np_zeros_like (a : ndarray F) : ndarray F := (fun _ => zero) <$> a.

(** [bool(a)]: an empty array is false (with a deprecation warning in the
    numpy releases of the time), an array of one element has that element's
    truth value, a longer one has none. *)
Definition nd_bool (a : ndarray F) : outcome bool :=
  match a with
  | [] => Return false
  | [x] => Return (nonzero x)
  | _ :: _ :: _ => Raise ambiguous_error
  end.

End Ndarray.
End np.

Import np.

(** [Weights = List[np.ndarray]]. *)
Abbreviation Weights F := (list (ndarray F)).

Record ClientProxy : Type := { cid : string }.

Record FitRes (F : Type) : Type := {
  parameters : Weights F;
  num_examples : Z
}.
Arguments parameters {F} _.
Arguments num_examples {F} _.

Definition BaseException : Type := exn.

(* ================================================================= *)
(** ** fedadagrad.py *)

Module FedAdagrad.
Section Strategy.
Context {F : Type} `{Dtype F}.

(** The attributes of a [FedAdagrad] object. The callbacks [eval_fn],
    [on_fit_config_fn] and [on_evaluate_config_fn] are stored and never
    called by [aggregate_fit]; they are left out. *)
Record t : Type := {
  fraction_fit : F;
  fraction_eval : F;
  min_fit_clients : Z;
  min_eval_clients : Z;
  min_available_clients : Z;
  accept_failures : bool;
  eta : F;
  eta_l : F;
  tau : F;
  v_t : option (ndarray F)
}.

Definition set_v_t (v : option (ndarray F)) (self : t) : t :=
  {| fraction_fit := fraction_fit self;
     fraction_eval := fraction_eval self;
     min_fit_clients := min_fit_clients self;
     min_eval_clients := min_eval_clients self;
     min_available_clients := min_available_clients self;
     accept_failures := accept_failures self;
     eta := eta self;
     eta_l := eta_l self;
     tau := tau self;
     v_t := v |}.

(** [__init__]: the arguments are stored by the base classes,
    [self.v_t] starts as [None]. *)
Definition init (fraction_fit fraction_eval : F)
    (min_fit_clients min_eval_clients min_available_clients : Z)
    (accept_failures : bool) (eta eta_l tau : F) : t :=
  {| fraction_fit := fraction_fit;
     fraction_eval := fraction_eval;
     min_fit_clients := min_fit_clients;
     min_eval_clients := min_eval_clients;
     min_available_clients := min_available_clients;
     accept_failures := accept_failures;
     eta := eta;
     eta_l := eta_l;
     tau := tau;
     v_t := None |}.

(** [not self.v_t] for [self.v_t : Optional[np.ndarray]]. *)
Definition not_v_t (v : option (ndarray F)) : outcome bool :=
  match v with
  | None => Return true
  | Some a => try b <- nd_bool a ;; Return (negb b)
  end.

(** [self.v_t + x] and [np.sqrt(self.v_t)]; neither is defined on [None]. *)
Definition v_t_add (v : option (ndarray F)) (x : ndarray F) : outcome (ndarray F) :=
  match v with
  | None => Raise (TypeError "unsupported operand type(s) for +: 'NoneType' and 'float'")
  | Some a => nd_add a x
  end.

Definition v_t_sqrt (v : option (ndarray F)) : outcome (ndarray F) :=
  match v with
  | None => Raise (TypeError "loop of ufunc does not support argument 0 of type NoneType which has no callable sqrt method")
  | Some a => Return (np_sqrt a)
  end.

(** The inherited [aggregate_fit] ([FedOpt] takes it from [FedAvg]); it
    reads the object and does not write it. *)
Definition super_method : Type :=
  t -> Z -> list (ClientProxy * FitRes F) -> list BaseException ->
  outcome (option (Weights F)).

Variable super_aggregate_fit : super_method.

(** [fedavg_aggregate[0] - previous_weights[0]] (line 84). *)
Definition aggregated_updates (fedavg_aggregate previous_weights : Weights F)
    : outcome (ndarray F) :=
  try a <- getitem fedavg_aggregate 0 ;;
  try p <- getitem previous_weights 0 ;;
  nd_sub a p.

(** [previous_weights[0] + self.eta * delta_t / (np.sqrt(self.v_t) + self.tau)]
    (line 93). *)
Definition updated_weights (previous_weights : Weights F) (delta_t : ndarray F)
    (self : t) : outcome (ndarray F) :=
  try p <- getitem previous_weights 0 ;;
  try s <- v_t_sqrt (v_t self) ;;
  try q <- nd_truediv (scalar_mul (eta self) delta_t) (add_scalar s (tau self)) ;;
  nd_add p q.

Definition aggregate_fit (rnd : Z) (results : list (ClientProxy * FitRes F))
    (failures : list BaseException) (previous_weights : Weights F)
    : method t (option (Weights F)) :=
  fedavg_aggregate <- expr (fun self => super_aggregate_fit self rnd results failures) ;;
  match fedavg_aggregate with
  | None => ret None
  | Some fedavg_aggregate =>
      aggregated_updates <- expr (fun _ => aggregated_updates fedavg_aggregate previous_weights) ;;
      let delta_t := aggregated_updates in
      unset <- expr (fun self => not_v_t (v_t self)) ;;
      (if unset : bool then assign (set_v_t (Some (np_zeros_like delta_t))) else ret tt) ;;;
      v <- expr (fun self => try d2 <- np_multiply delta_t delta_t ;; v_t_add (v_t self) d2) ;;
      assign (set_v_t (Some v)) ;;;
      w <- expr (updated_weights previous_weights delta_t) ;;
      let weights := [w] in
      ret (Some weights)
  end.

(** The default of the parameter [previous_weights]. *)
Definition previous_weights_default : Weights F := [].

(** [__repr__] (lines 67-69): the f-string prints [self.accept_failures] as
    [str] prints a [bool]. *)
Definition repr (self : t) : string :=
  "FedAdagrad(accept_failures="
  +:+ (if accept_failures self then "True" else "False") +:+ ")".

End Strategy.
Arguments t F : clear implicits.
Arguments super_method F : clear implicits.
End FedAdagrad.

(* ================================================================= *)
(** ** The inherited aggregation *)

Module FedAvg.
Section Aggregate.
Context {F : Type} `{Dtype F}.

(** Modelled from the spec: the term [w_i * params_i] of
    [FedAvg.aggregate_fit], whose file is not part of the sources. One
    client's tensors, each multiplied by the client's [num_examples]. *)
Definition weighted (r : FitRes F) : list (option (ndarray F)) :=
  (fun layer => Some (mul_scalar layer (of_int (num_examples r)))) <$> parameters r.

(** Modelled from the spec: the sum of two tensors in [FedAvg.aggregate_fit]
    (not part of the sources); [None] once a summand does not fit the
    others. *)
Definition layer_add (x y : option (ndarray F)) : option (ndarray F) :=
  match x, y with
  | Some a, Some b => broadcast add a b
  | _, _ => None
  end.

(** Modelled from the spec: [sum(w_i * params_i)] of [FedAvg.aggregate_fit]
    (not part of the sources). The clients' weighted tensors added up tensor
    by tensor, as far as every client has tensors; [None] for no client at
    all. *)
Definition weighted_sum (rs : list (FitRes F)) : option (list (option (ndarray F))) :=
  foldr (fun r acc => Some (match acc with
                            | None => weighted r
                            | Some s => zip_with layer_add (weighted r) s
                            end)) None rs.

(** Modelled from the spec: [sum(w_i)] of [FedAvg.aggregate_fit] (not part of
    the sources). *)
Definition num_examples_total (rs : list (FitRes F)) : Z :=
  foldr (fun r n => (num_examples r + n)%Z) 0%Z rs.

(** Modelled from the spec: the division by [sum(w_i)] in
    [FedAvg.aggregate_fit] (not part of the sources). Each summed tensor is
    divided by the total weight; a sum that could not be formed raises. *)
Fixpoint averaged (total : F) (sums : list (option (ndarray F))) : outcome (Weights F) :=
  match sums with
  | [] => Return []
  | None :: _ => Raise broadcast_error
  | Some s :: sums' =>
      try rest <- averaged total sums' ;;
      Return (div_scalar s total :: rest)
  end.

(** Modelled from the spec: [FedAvg.aggregate_fit] is inherited by
    [FedAdagrad] through [FedOpt] and its file is not part of the sources.
    From sections 4.4 and 7 of the specification: no result for a round
    without results, no result when [accept_failures] is false and there is
    a failure, and otherwise the average of the clients' parameters weighted
    by [num_examples], [sum(w_i * params_i) / sum(w_i)] per tensor. *)
Definition aggregate_fit (accept_failures : bool) (rnd : Z)
    (results : list (ClientProxy * FitRes F)) (failures : list BaseException)
    : outcome (option (Weights F)) :=
  if negb accept_failures && negb (bool_decide (length failures = 0%nat))
  then Return None
  else
    match weighted_sum (snd <$> results) with
    | None => Return None
    | Some sums =>
        try w <- averaged (of_int (num_examples_total (snd <$> results))) sums ;;
        Return (Some w)
    end.

End Aggregate.
End FedAvg.

(** Modelled from the spec: [super().aggregate_fit] of a [FedAdagrad] object
    is [FedAvg.aggregate_fit] (not part of the sources) on the object's
    [accept_failures]. *)
Definition inherited {F : Type} `{Dtype F} : FedAdagrad.super_method F :=
  fun self => FedAvg.aggregate_fit (FedAdagrad.accept_failures self).

(** An inherited aggregation that yields [fedavg_aggregate] whatever the
    round's results are. *)
Definition yields {F : Type} `{Dtype F} (fedavg_aggregate : Weights F)
    : FedAdagrad.super_method F :=
  fun _ _ _ _ => Return (Some fedavg_aggregate).

(** The accumulator that line 90 adds to: zeros shaped like [delta_t] when
    line 88 found [self.v_t] unset or false, [self.v_t] otherwise. *)
Definition accumulator_read {F : Type} `{Dtype F} (v : option (ndarray F))
    (delta_t : ndarray F) (unset : bool) : option (ndarray F) :=
  if unset then Some (np_zeros_like delta_t) else v.

(** An accumulator on which the test of line 88 is defined and which line
    90 can add to a [delta_t] of [n] elements: unset, or an array of [n]
    elements with [n <= 1]. *)
Definition accumulator_fits {F : Type} (v : option (ndarray F)) (n : nat) : Prop :=
  match v with
  | None => True
  | Some a => length a = n /\ (n <= 1)%nat
  end.

(** The value such an accumulator contributes to the sum of line 90: its
    element when it holds a true one, zero when it is unset, empty or
    false. *)
Definition accumulator_at {F : Type} `{Dtype F} (v : option (ndarray F)) : F :=
  match v with
  | Some [x] => if nonzero x then x else zero
  | _ => zero
  end.

(** A strategy object made with the constructor's defaults (lines 38-49),
    over [float64]. *)
Definition fresh_FedAdagrad : FedAdagrad.t float :=
  FedAdagrad.init 0.1%float 0.1%float 2 2 2 true 1e-1%float 1e-1%float 1e-9%float.

(** Rounds run one after the other on the same object: the outcome of each
    call, and the object after the last. A round that raises does not stop
    the later ones here; the caller of [aggregate_fit] is not part of the
    sources. *)
Fixpoint rounds {S A} (calls : list (method S A)) (self : S) : list (outcome A) * S :=
  match calls with
  | [] => ([], self)
  | call :: calls' =>
      let '(o, self') := call self in
      let '(os, self'') := rounds calls' self' in
      (o :: os, self'')
  end.

(** [try: m except Exception as err: h(err)]. Every exception of [Py.exn]
    is an [Exception]. *)
Definition catch {S A} (m : method S A) (handler : exn -> method S A) : method S A :=
  fun s =>
    match m s with
    | (Return a, s') => (Return a, s')
    | (Raise err, s') => handler err s'
    end.

(** [str(err)] for an exception made with one string argument. *)
Definition exn_str (err : exn) : string :=
  match err with
  | IndexError msg | ValueError msg | TypeError msg | UnboundLocalError msg => msg
  end.

(** The sum that a run of rounds leaves in a one-element accumulator: the
    squares of the rounds' [delta_t], added in order to what it held. *)
Definition accumulated {F : Type} `{Dtype F} (start : F) (deltas : list F) : F :=
  foldl (fun v d => add v (multiply d d)) start deltas.

(** The variant the specification recommends for line 88: the accumulator
    is initialised exactly when it has never been set ([self.v_t is None]),
    with no truth-value test. Everything else is [FedAdagrad.aggregate_fit]. *)
Definition aggregate_fit_explicit_init {F : Type} `{Dtype F}
    (super_aggregate_fit : FedAdagrad.super_method F)
    (rnd : Z) (results : list (ClientProxy * FitRes F))
    (failures : list BaseException) (previous_weights : Weights F)
    : method (FedAdagrad.t F) (option (Weights F)) :=
  fedavg_aggregate <- expr (fun self => super_aggregate_fit self rnd results failures) ;;
  match fedavg_aggregate with
  | None => ret None
  | Some fedavg_aggregate =>
      aggregated_updates <- expr (fun _ => FedAdagrad.aggregated_updates fedavg_aggregate previous_weights) ;;
      let delta_t := aggregated_updates in
      unset <- expr (fun self => Return (match FedAdagrad.v_t self with
                                         | None => true
                                         | Some _ => false
                                         end)) ;;
      (if unset : bool
       then assign (FedAdagrad.set_v_t (Some (np_zeros_like delta_t)))
       else ret tt) ;;;
      v <- expr (fun self => try d2 <- np_multiply delta_t delta_t ;;
                             FedAdagrad.v_t_add (FedAdagrad.v_t self) d2) ;;
      assign (FedAdagrad.set_v_t (Some v)) ;;;
      w <- expr (FedAdagrad.updated_weights previous_weights delta_t) ;;
      let weights := [w] in
      ret (Some weights)
  end.

(* ================================================================= *)
(** ** flower_benchmark/cifar/server.py *)

Module Server.

(** The Python values a configuration could hold. *)
Inductive pyval : Type :=
| PyNone
| PyBool (b : bool)
| PyInt (n : Z)
| PyFloat (x : float)
| PyStr (s : string).

Abbreviation dict := (gmap string pyval).

(** Dictionaries are objects: the heap maps each live one's address to its
    content. *)
Abbreviation addr := positive.
Abbreviation heap := (gmap positive (gmap string pyval)).

(** [{k1: v1, ...}]: a new dictionary at an address not in use. *)
Definition new_dict (d : dict) : method heap addr :=
  fun h => let a := fresh (dom h) in (Return a, <[a := d]> h).

(** [d[k] = v]. *)
Definition setitem (a : addr) (k : string) (v : pyval) : method heap unit :=
  assign (alter (insert k v) a).

(** The settings object read by [main] ([settings.py] is not part of the
    sources; these are the attributes [main] reads). *)
Record ServerSetting : Type := {
  strategy : string;
  rounds : Z;
  dry_run : bool;
  lr_initial : float;
  partial_updates : bool;
  sample_fraction : float;
  min_sample_size : Z;
  min_num_clients : Z;
  training_round_timeout : option Z;
  training_round_timeout_short : option Z;
  importance_sampling : bool;
  dynamic_timeout : bool;
  alternating_timeout : bool
}.

(** The strategy objects [main] constructs, with the keyword arguments it
    passes; [eval_fn] and [on_fit_config_fn], the same in all five, are left
    out. *)
Inductive strategy_object : Type :=
| FedAvg (fraction_fit : float) (min_fit_clients min_available_clients : Z)
| FastAndSlow (fraction_fit : float) (min_fit_clients min_available_clients : Z)
    (importance_sampling dynamic_timeout : bool) (dynamic_timeout_percentile : float)
    (alternating_timeout : bool) (r_fast r_slow t_fast t_slow : Z)
| FedFSv0 (fraction_fit : float) (min_fit_clients min_available_clients : Z)
    (r_fast r_slow t_fast t_slow : Z)
| FedFSv1 (fraction_fit : float) (min_fit_clients min_available_clients : Z)
    (dynamic_timeout_percentile : float) (r_fast r_slow t_max : Z)
    (use_past_contributions : bool)
| QffedAvg (q_param qffl_learning_rate fraction_fit : float)
    (min_fit_clients min_available_clients : Z).

(** What [main] does to the world, in order. The calls into the logger, the
    dataset, the model and the strategy constructors are taken to return. *)
Inductive event : Type :=
| ev_parse_args
| ev_configure
| ev_get_setting
| ev_log (level fmt : string)
| ev_load_data
| ev_load_model
| ev_SimpleClientManager
| ev_strategy (s : strategy_object)
| ev_Server (s : strategy_object)
| ev_start_server (num_rounds : Z).

Definition emit (e : event) : method (list event) unit :=
  assign (fun trace => (trace ++ [e])%list).

(** [math.ceil(0.5 * t)] for an [int] [t] (exact while [0.5 * t] is, that
    is for [|t| < 2^53]). *)
Definition ceil_half (t : Z) : Z := ((t + 1) / 2)%Z.

Definition t_fast_of (timeout : Z) (short : option Z) : Z :=
  match short with
  | None => ceil_half timeout
  | Some t => t
  end.

(** One of the timeout-dependent blocks of [main] (lines 92-152): the
    check of [training_round_timeout], then the constructor call. *)
Definition timeout_strategy (name : string) (server_setting : ServerSetting)
    (construct : Z -> strategy_object) : method (list event) strategy_object :=
  match training_round_timeout server_setting with
  | None =>
      raise (ValueError ("No `training_round_timeout` set for `" +:+ name +:+ "` strategy"))
  | Some timeout =>
      let s := construct timeout in
      emit (ev_strategy s) ;;;
      ret s
  end.

(** [main], from the settings [get_setting(args.setting).server] returned.
    The local variable [strategy] is bound by the [if] statements that
    fire. The test data (sliced under [dry_run]), [eval_fn] and
    [on_fit_config_fn] are values handed to the constructors; they are not
    kept in the trace. *)
Definition main (server_setting : ServerSetting) : method (list event) unit :=
  emit ev_parse_args ;;;
  emit ev_configure ;;;
  emit ev_get_setting ;;;
  emit (ev_log "INFO" "server_setting: %s") ;;;
  emit ev_load_data ;;;
  emit ev_load_model ;;;
  emit ev_SimpleClientManager ;;;
  let strategy_ : option strategy_object := None in
  strategy_ <-
    (if bool_decide (strategy server_setting = "fedavg")
     then
       let s := FedAvg (sample_fraction server_setting) (min_sample_size server_setting)
                  (min_num_clients server_setting) in
       emit (ev_strategy s) ;;; ret (Some s)
     else ret strategy_) ;;
  strategy_ <-
    (if bool_decide (strategy server_setting = "fast-and-slow")
     then
       s <- timeout_strategy "fast-and-slow" server_setting (fun timeout =>
              FastAndSlow (sample_fraction server_setting) (min_sample_size server_setting)
                (min_num_clients server_setting) (importance_sampling server_setting)
                (dynamic_timeout server_setting) 0.8%float
                (alternating_timeout server_setting) 1 1
                (t_fast_of timeout (training_round_timeout_short server_setting))
                timeout) ;;
       ret (Some s)
     else ret strategy_) ;;
  strategy_ <-
    (if bool_decide (strategy server_setting = "fedfs-v0")
     then
       s <- timeout_strategy "fedfs-v0" server_setting (fun timeout =>
              FedFSv0 (sample_fraction server_setting) (min_sample_size server_setting)
                (min_num_clients server_setting) 1 1
                (t_fast_of timeout (training_round_timeout_short server_setting))
                timeout) ;;
       ret (Some s)
     else ret strategy_) ;;
  strategy_ <-
    (if bool_decide (strategy server_setting = "fedfs-v1")
     then
       s <- timeout_strategy "fedfs-v1" server_setting (fun timeout =>
              FedFSv1 (sample_fraction server_setting) (min_sample_size server_setting)
                (min_num_clients server_setting) 0.8%float 1 1 timeout true) ;;
       ret (Some s)
     else ret strategy_) ;;
  strategy_ <-
    (if bool_decide (strategy server_setting = "qffedavg")
     then
       let s := QffedAvg 0.2%float 0.1%float (sample_fraction server_setting)
                  (min_sample_size server_setting) (min_num_clients server_setting) in
       emit (ev_strategy s) ;;; ret (Some s)
     else ret strategy_) ;;
  match strategy_ with
  | None =>
      raise (UnboundLocalError "local variable 'strategy' referenced before assignment")
  | Some s =>
      emit (ev_log "INFO" "Instantiating server, strategy: %s") ;;;
      emit (ev_Server s) ;;;
      emit (ev_start_server (rounds server_setting))
  end.

(** The script's body under [if __name__ == "__main__"] (lines 214-223):
    an exception of [main] is logged twice at level ERROR, the second time
    as the message, and raised again. *)
Definition script (server_setting : ServerSetting) : method (list event) unit :=
  catch (main server_setting) (fun err =>
    emit (ev_log "ERROR" "Fatal error in main") ;;;
    emit (ev_log "ERROR" (exn_str err)) ;;;
    raise err).

Definition starts_server (e : event) : bool :=
  match e with
  | ev_Server _ | ev_start_server _ => true
  | _ => false
  end.

Section FitConfig.

(** [str(x)] for a float [x]: Python prints the shortest decimal that reads
    back as [x]; the conversion is not modelled. *)
Variable float_str : float -> string.

(** [str(v)]. *)
Definition str (v : pyval) : string :=
  match v with
  | PyNone => "None"
  | PyBool true => "True"
  | PyBool false => "False"
  | PyInt n => pretty n
  | PyFloat x => float_str x
  | PyStr s => s
  end.

(** The closure [fit_config] that [get_on_fit_config_fn] returns. *)
Definition get_on_fit_config_fn (lr_initial : float) (timeout : option Z)
    (partial_updates : bool) : Z -> method heap addr :=
  fun rnd =>
    config <- new_dict
      (<["epoch_global" := PyStr (str (PyInt rnd))]>
       (<["epochs" := PyStr (str (PyInt 1))]>
        (<["batch_size" := PyStr (str (PyInt 10))]>
         (<["lr_initial" := PyStr (str (PyFloat lr_initial))]>
          (<["lr_decay" := PyStr (str (PyFloat 0.99%float))]>
           (<["partial_updates" := PyStr (if partial_updates then "1" else "0")]> ∅)))))) ;;
    match timeout with
    | Some t => setitem config "timeout" (PyStr (str (PyInt t)))
    | None => ret tt
    end ;;;
    ret config.

(** The content of the dictionary that [fit_config] builds, as a value: the
    statement that the allocation and the assignment of [fit_config] are
    compared with. *)
Definition config_of (lr_initial : float) (timeout : option Z)
    (partial_updates : bool) (rnd : Z) : dict :=
  let literal : dict :=
    <["epoch_global" := PyStr (str (PyInt rnd))]>
    (<["epochs" := PyStr (str (PyInt 1))]>
     (<["batch_size" := PyStr (str (PyInt 10))]>
      (<["lr_initial" := PyStr (str (PyFloat lr_initial))]>
       (<["lr_decay" := PyStr (str (PyFloat 0.99%float))]>
        (<["partial_updates" := PyStr (if partial_updates then "1" else "0")]> ∅))))) in
  match timeout with
  | Some t => <["timeout" := PyStr (str (PyInt t))]> literal
  | None => literal
  end.

End FitConfig.

Definition is_str (v : pyval) : Prop :=
  match v with
  | PyStr _ => True
  | _ => False
  end.

(** The dictionary a call returned, read from the heap it left. *)
Definition returned_dict (r : outcome addr * heap) : option dict :=
  match fst r with
  | Return a => snd r !! a
  | Raise _ => None
  end.

(** The fast and the slow timeout of a strategy that has both. *)
Definition strategy_timeouts (s : strategy_object) : option (Z * Z) :=
  match s with
  | FastAndSlow _ _ _ _ _ _ _ _ _ t_fast t_slow => Some (t_fast, t_slow)
  | FedFSv0 _ _ _ _ _ t_fast t_slow => Some (t_fast, t_slow)
  | _ => None
  end.

(** What [main] does before it looks at the strategy's name. *)
Definition setup_events : list event :=
  [ev_parse_args; ev_configure; ev_get_setting; ev_log "INFO" "server_setting: %s";
   ev_load_data; ev_load_model; ev_SimpleClientManager].

(** What [main] does with a strategy [s] once it is constructed. *)
Definition server_events (s : strategy_object) (num_rounds : Z) : list event :=
  [ev_strategy s; ev_log "INFO" "Instantiating server, strategy: %s"; ev_Server s;
   ev_start_server num_rounds].

Definition missing_timeout (name : string) : exn :=
  ValueError ("No `training_round_timeout` set for `" +:+ name +:+ "` strategy").

(** The strategy a settings object asks for, as one choice by name: the
    statement that [main]'s five [if] statements are compared with. *)
Definition strategy_for (server_setting : ServerSetting) : outcome strategy_object :=
  let name := strategy server_setting in
  let fraction := sample_fraction server_setting in
  let min_fit := min_sample_size server_setting in
  let min_available := min_num_clients server_setting in
  let timeout := training_round_timeout server_setting in
  let short := training_round_timeout_short server_setting in
  if bool_decide (name = "fedavg") then
    Return (FedAvg fraction min_fit min_available)
  else if bool_decide (name = "fast-and-slow") then
    match timeout with
    | None => Raise (missing_timeout name)
    | Some t =>
        Return (FastAndSlow fraction min_fit min_available
                  (importance_sampling server_setting) (dynamic_timeout server_setting)
                  0.8%float (alternating_timeout server_setting) 1 1
                  (t_fast_of t short) t)
    end
  else if bool_decide (name = "fedfs-v0") then
    match timeout with
    | None => Raise (missing_timeout name)
    | Some t => Return (FedFSv0 fraction min_fit min_available 1 1 (t_fast_of t short) t)
    end
  else if bool_decide (name = "fedfs-v1") then
    match timeout with
    | None => Raise (missing_timeout name)
    | Some t => Return (FedFSv1 fraction min_fit min_available 0.8%float 1 1 t true)
    end
  else if bool_decide (name = "qffedavg") then
    Return (QffedAvg 0.2%float 0.1%float fraction min_fit min_available)
  else
    Raise (UnboundLocalError "local variable 'strategy' referenced before assignment").

(** The settings whose [training_round_timeout], when set, is an integer
    that binary64 holds exactly, [|t| < 2^53]: on these
    [0.5 * training_round_timeout] of lines 98 and 122 is computed without
    rounding or overflow, and [ceil_half] is [math.ceil] of it. *)
Definition timeout_exact (server_setting : ServerSetting) : Prop :=
  match training_round_timeout server_setting with
  | Some t => (- 2 ^ 53 < t < 2 ^ 53)%Z
  | None => True
  end.

End Server.

(** A settings object for examples. *)
Definition example_setting (strategy : string) (timeout : option Z) : Server.ServerSetting :=
  {| Server.strategy := strategy; Server.rounds := 3; Server.dry_run := false;
     Server.lr_initial := 0.1%float; Server.partial_updates := false;
     Server.sample_fraction := 0.5%float; Server.min_sample_size := 2;
     Server.min_num_clients := 2; Server.training_round_timeout := timeout;
     Server.training_round_timeout_short := None;
     Server.importance_sampling := false; Server.dynamic_timeout := false;
     Server.alternating_timeout := false |}.

(* ================================================================= *)
(** * Properties *)

(** ** The embedding on examples *)

(** The end-to-end scenario of the specification: two clients with 10 and
    30 examples and parameters 1.0 and 2.0 average to 1.75. *)
Example FedAvg_scenario :
  FedAvg.aggregate_fit true 1
    [({| cid := "a" |}, {| parameters := [[1%float]]; num_examples := 10 |});
     ({| cid := "b" |}, {| parameters := [[2%float]]; num_examples := 30 |})] []
  = Return (Some [[1.75%float]]).
Proof. vm_compute. reflexivity. Qed.

Example FedAvg_no_results :
  FedAvg.aggregate_fit (F := float) true 1 [] [] = Return None.
Proof. reflexivity. Qed.

(** Arrays of two and three elements do not broadcast; one element does. *)
Example broadcast_shapes :
  nd_add [1; 2]%float [1; 2; 3]%float = Raise broadcast_error
  /\ nd_add [1]%float [1; 2; 3]%float = Return [2; 3; 4]%float
  /\ nd_add [1; 2; 3]%float [1]%float = Return [2; 3; 4]%float.
Proof. vm_compute. repeat split. Qed.

Example truth_values :
  nd_bool ([] : ndarray float) = Return false
  /\ nd_bool [0%float] = Return false
  /\ nd_bool [(-0)%float] = Return false
  /\ nd_bool [4%float] = Return true
  /\ nd_bool [0; 0]%float = Raise ambiguous_error.
Proof. vm_compute. repeat split. Qed.

Example str_of_int :
  Server.str (fun _ => "") (Server.PyInt 0) = "0"
  /\ Server.str (fun _ => "") (Server.PyInt 12) = "12"
  /\ Server.str (fun _ => "") (Server.PyInt (-7)) = "-7".
Proof. repeat split. Qed.

Example ceil_half_examples :
  Server.ceil_half 3 = 2%Z /\ Server.ceil_half 4 = 2%Z /\ Server.ceil_half (-3) = (-1)%Z.
Proof. repeat split. Qed.

(** With a timeout, [main] gets to the server. *)
Example main_fedfs_v0_with_timeout :
  Server.main (example_setting "fedfs-v0" (Some 7%Z)) []
  = (Return tt,
     [Server.ev_parse_args; Server.ev_configure; Server.ev_get_setting;
      Server.ev_log "INFO" "server_setting: %s"; Server.ev_load_data;
      Server.ev_load_model; Server.ev_SimpleClientManager;
      Server.ev_strategy (Server.FedFSv0 0.5%float 2 2 1 1 4 7);
      Server.ev_log "INFO" "Instantiating server, strategy: %s";
      Server.ev_Server (Server.FedFSv0 0.5%float 2 2 1 1 4 7);
      Server.ev_start_server 3]).
Proof. vm_compute. reflexivity. Qed.

(** A strategy name that no [if] statement knows leaves [strategy] unbound. *)
Example main_unknown_strategy :
  fst (Server.main (example_setting "fedprox" None) [])
  = Raise (UnboundLocalError "local variable 'strategy' referenced before assignment").
Proof. vm_compute. reflexivity. Qed.

(** ** Running [aggregate_fit] *)

Section AggregateFitSteps.
Context {F : Type} `{Dtype F}.
Variable super_aggregate_fit : FedAdagrad.super_method F.

(** A subscript raises nothing but [IndexError]. *)
Lemma getitem_raises {A} (l : list A) (i : nat) (e : exn) :
  getitem l i = Raise e -> e = IndexError "list index out of range".
Proof.
  unfold getitem. destruct (l !! i); intros E; [discriminate | congruence].
Qed.

Lemma getitem_lookup {A} (l : list A) (i : nat) (x : A) :
  l !! i = Some x -> getitem l i = Return x.
Proof. unfold getitem. intros ->. reflexivity. Qed.

(** No result from the inherited aggregation: [None] is passed on and the
    object is not touched. *)
Lemma aggregate_fit_no_result self rnd results failures previous_weights :
  super_aggregate_fit self rnd results failures = Return None ->
  FedAdagrad.aggregate_fit super_aggregate_fit rnd results failures previous_weights self
  = (Return None, self).
Proof.
  intros E. unfold FedAdagrad.aggregate_fit, seq, expr. rewrite E. reflexivity.
Qed.

(** An exception of the inherited aggregation propagates. *)
Lemma aggregate_fit_super_raises self rnd results failures previous_weights e :
  super_aggregate_fit self rnd results failures = Raise e ->
  FedAdagrad.aggregate_fit super_aggregate_fit rnd results failures previous_weights self
  = (Raise e, self).
Proof.
  intros E. unfold FedAdagrad.aggregate_fit, seq, expr. rewrite E. reflexivity.
Qed.

(** Line 84 raising ends the call before the accumulator is read. *)
Lemma aggregate_fit_updates_raise self rnd results failures previous_weights agg e :
  super_aggregate_fit self rnd results failures = Return (Some agg) ->
  FedAdagrad.aggregated_updates agg previous_weights = Raise e ->
  FedAdagrad.aggregate_fit super_aggregate_fit rnd results failures previous_weights self
  = (Raise e, self).
Proof.
  intros E1 E2. unfold FedAdagrad.aggregate_fit, seq, expr. rewrite E1, E2. reflexivity.
Qed.

(** The test of line 88 raising ends the call with the accumulator as it
    was. *)
Lemma aggregate_fit_test_raises self rnd results failures previous_weights agg delta_t e :
  super_aggregate_fit self rnd results failures = Return (Some agg) ->
  FedAdagrad.aggregated_updates agg previous_weights = Return delta_t ->
  FedAdagrad.not_v_t (FedAdagrad.v_t self) = Raise e ->
  FedAdagrad.aggregate_fit super_aggregate_fit rnd results failures previous_weights self
  = (Raise e, self).
Proof.
  intros E1 E2 E3. unfold FedAdagrad.aggregate_fit, seq, expr.
  rewrite E1, E2, E3. reflexivity.
Qed.

End AggregateFitSteps.

(** ** The default of [previous_weights] *)

(** C9. Called with the default [previous_weights = []], a round for which
    the inherited aggregation yields a result does not return parameters:
    the subscript [previous_weights[0]] raises [IndexError], which is what
    the call raises, leaving the object as it was. *)
Theorem aggregate_fit_default_previous_weights_raises
    {F : Type} `{Dtype F} (super_aggregate_fit : FedAdagrad.super_method F)
    (self : FedAdagrad.t F) (rnd : Z) (results : list (ClientProxy * FitRes F))
    (failures : list BaseException) (fedavg_aggregate : Weights F) :
  super_aggregate_fit self rnd results failures = Return (Some fedavg_aggregate) ->
  getitem (FedAdagrad.previous_weights_default (F := F)) 0
    = Raise (IndexError "list index out of range")
  /\ FedAdagrad.aggregate_fit super_aggregate_fit rnd results failures
       FedAdagrad.previous_weights_default self
     = (Raise (IndexError "list index out of range"), self).
Proof.
  intros E. split; [reflexivity |].
  apply aggregate_fit_updates_raise with (agg := fedavg_aggregate); [exact E |].
  unfold FedAdagrad.aggregated_updates, Py.bind.
  destruct (getitem fedavg_aggregate 0) as [a | e] eqn:Ea.
  - reflexivity.
  - f_equal. exact (getitem_raises _ _ _ Ea).
Qed.

Lemma aggregate_fit_default_previous_weights_raises_witness :
  FedAdagrad.aggregate_fit (yields [[2%float]]) 1 [] []
    FedAdagrad.previous_weights_default fresh_FedAdagrad
  = (Raise (IndexError "list index out of range"), fresh_FedAdagrad).
Proof.
  apply (aggregate_fit_default_previous_weights_raises
           (yields [[2%float]]) fresh_FedAdagrad 1 [] [] [[2%float]]).
  reflexivity.
Defined.

(** ** The accumulator across rounds *)

Section Accumulator.
Context {F : Type} `{Dtype F}.
Variable super_aggregate_fit : FedAdagrad.super_method F.

(** A call in which every statement returns. *)
Lemma aggregate_fit_returns self rnd results failures previous_weights
    agg delta_t unset d2 v w :
  super_aggregate_fit self rnd results failures = Return (Some agg) ->
  FedAdagrad.aggregated_updates agg previous_weights = Return delta_t ->
  FedAdagrad.not_v_t (FedAdagrad.v_t self) = Return unset ->
  np_multiply delta_t delta_t = Return d2 ->
  FedAdagrad.v_t_add (accumulator_read (FedAdagrad.v_t self) delta_t unset) d2 = Return v ->
  FedAdagrad.updated_weights previous_weights delta_t (FedAdagrad.set_v_t (Some v) self)
    = Return w ->
  FedAdagrad.aggregate_fit super_aggregate_fit rnd results failures previous_weights self
  = (Return (Some [w]), FedAdagrad.set_v_t (Some v) self).
Proof.
  intros E1 E2 E3 E4 E5 E6.
  unfold FedAdagrad.aggregate_fit, seq, expr, assign, ret.
  rewrite E1, E2, E3.
  destruct unset; cbn [accumulator_read] in E5; cbn.
  - rewrite E4. cbn. unfold FedAdagrad.v_t_add in E5. rewrite E5.
    cbn. unfold FedAdagrad.set_v_t in *. cbn in *. rewrite E6. reflexivity.
  - rewrite E4. cbn. rewrite E5. rewrite E6. reflexivity.
Qed.

(** An operation on two arrays of one length is elementwise. *)
Lemma broadcast_same_length (op : F -> F -> F) (a b : ndarray F) :
  length a = length b -> broadcast op a b = Some (zip_with op a b).
Proof. intros E. unfold broadcast. rewrite decide_True by exact E. reflexivity. Qed.

Lemma ufunc2_same_length (op : F -> F -> F) (a b : ndarray F) :
  length a = length b -> ufunc2 op a b = Return (zip_with op a b).
Proof. intros E. unfold ufunc2. rewrite broadcast_same_length by exact E. reflexivity. Qed.

(** An array of more than one element has no truth value. *)
Lemma nd_bool_ambiguous (a : ndarray F) :
  (1 < length a)%nat -> nd_bool a = Raise ambiguous_error.
Proof. destruct a as [| x [| y a]]; cbn; intros; try lia. reflexivity. Qed.

(** What line 84 could subtract, lines 90 and 93 can add and divide: the
    first tensor of [previous_weights] fits every array of [delta_t]'s
    length. *)
Lemma broadcast_back (op op' : F -> F -> F) (a p d q : ndarray F) :
  broadcast op a p = Some d -> length q = length d ->
  exists w, broadcast op' p q = Some w /\ length w = length d.
Proof.
  unfold broadcast. intros E Hq.
  destruct (decide (length a = length p)) as [El | Nl].
  - injection E as <-. rewrite length_zip_with in Hq.
    rewrite decide_True by lia. eexists. split; [reflexivity |].
    rewrite !length_zip_with. lia.
  - destruct a as [| x [| y a]]; destruct p as [| u [| u' p]];
      try discriminate; try (cbn in Nl; lia);
      injection E as <-; cbn in Hq; rewrite ?length_fmap in Hq;
      case_decide;
      first [ exfalso; cbn in *; lia
            | eexists; (split; [reflexivity |]);
              rewrite ?length_zip_with; cbn [length] in *;
              rewrite ?length_fmap; lia ].
Qed.

(** The first call on a fresh object returns as soon as line 84 does. *)
Lemma aggregate_fit_first_call self rnd results failures previous_weights agg delta_t :
  FedAdagrad.v_t self = None ->
  super_aggregate_fit self rnd results failures = Return (Some agg) ->
  FedAdagrad.aggregated_updates agg previous_weights = Return delta_t ->
  exists w v,
    FedAdagrad.aggregate_fit super_aggregate_fit rnd results failures previous_weights self
    = (Return (Some [w]), FedAdagrad.set_v_t (Some v) self)
    /\ v = zip_with add (np_zeros_like delta_t) (zip_with multiply delta_t delta_t).
Proof.
  intros Ev E1 E2.
  set (v := zip_with add (np_zeros_like delta_t) (zip_with multiply delta_t delta_t)).
  assert (Lv : length v = length delta_t).
  { unfold v, np_zeros_like. rewrite !length_zip_with, length_fmap. lia. }
  assert (exists w, FedAdagrad.updated_weights previous_weights delta_t
                      (FedAdagrad.set_v_t (Some v) self) = Return w) as [w Ew].
  { unfold FedAdagrad.aggregated_updates, Py.bind in E2.
    destruct (getitem agg 0) as [a |]; [| discriminate].
    unfold FedAdagrad.updated_weights, Py.bind.
    destruct (getitem previous_weights 0) as [p |]; [| discriminate].
    cbn. unfold nd_truediv. rewrite ufunc2_same_length.
    2:{ unfold scalar_mul, add_scalar, np_sqrt. rewrite !length_fmap. lia. }
    unfold nd_sub, ufunc2 in E2.
    destruct (broadcast subtract a p) as [d |] eqn:Ed; [| discriminate].
    injection E2 as ->.
    destruct (broadcast_back subtract add a p delta_t
                (zip_with divide (scalar_mul (FedAdagrad.eta self) delta_t)
                   (add_scalar (np_sqrt v) (FedAdagrad.tau self))) Ed) as (w & Ew & _).
    { unfold scalar_mul, add_scalar, np_sqrt.
      rewrite length_zip_with, !length_fmap. lia. }
    exists w. unfold nd_add, ufunc2. rewrite Ew. reflexivity. }
  exists w, v. split; [| reflexivity].
  apply aggregate_fit_returns
    with (agg := agg) (delta_t := delta_t) (unset := true)
         (d2 := zip_with multiply delta_t delta_t); try assumption.
  - rewrite Ev. reflexivity.
  - apply ufunc2_same_length. reflexivity.
  - cbn. apply ufunc2_same_length.
    unfold np_zeros_like. rewrite length_zip_with, length_fmap. lia.
Qed.

(** Once the accumulator holds more than one element, a call that gets to
    line 88 raises there. *)
Lemma aggregate_fit_ambiguous self rnd results failures previous_weights agg delta_t v :
  FedAdagrad.v_t self = Some v -> (1 < length v)%nat ->
  super_aggregate_fit self rnd results failures = Return (Some agg) ->
  FedAdagrad.aggregated_updates agg previous_weights = Return delta_t ->
  FedAdagrad.aggregate_fit super_aggregate_fit rnd results failures previous_weights self
  = (Raise ambiguous_error, self).
Proof.
  intros Ev Lv E1 E2.
  apply aggregate_fit_test_raises with (agg := agg) (delta_t := delta_t); try assumption.
  rewrite Ev. cbn. rewrite nd_bool_ambiguous by exact Lv. reflexivity.
Qed.

End Accumulator.

(** C10. On an object whose first successful round had a [delta_t] of more
    than one element, the accumulator holds an array of that many elements,
    and every later round that gets as far as the test [not self.v_t]
    raises [ValueError] (ambiguous truth value) there: it returns no
    parameters and leaves the accumulator as the first round made it. *)
Theorem aggregate_fit_second_round_ambiguous
    {F : Type} `{Dtype F} (super_aggregate_fit : FedAdagrad.super_method F)
    (self : FedAdagrad.t F) (rnd : Z) (results : list (ClientProxy * FitRes F))
    (failures : list BaseException) (previous_weights fedavg_aggregate : Weights F)
    (delta_t : ndarray F) :
  FedAdagrad.v_t self = None ->
  super_aggregate_fit self rnd results failures = Return (Some fedavg_aggregate) ->
  FedAdagrad.aggregated_updates fedavg_aggregate previous_weights = Return delta_t ->
  (1 < length delta_t)%nat ->
  exists w v,
    FedAdagrad.aggregate_fit super_aggregate_fit rnd results failures previous_weights self
    = (Return (Some [w]), FedAdagrad.set_v_t (Some v) self)
    /\ length v = length delta_t
    /\ forall rnd' results' failures' previous_weights' fedavg_aggregate' delta_t',
         super_aggregate_fit (FedAdagrad.set_v_t (Some v) self) rnd' results' failures'
           = Return (Some fedavg_aggregate') ->
         FedAdagrad.aggregated_updates fedavg_aggregate' previous_weights' = Return delta_t' ->
         FedAdagrad.aggregate_fit super_aggregate_fit rnd' results' failures'
           previous_weights' (FedAdagrad.set_v_t (Some v) self)
         = (Raise ambiguous_error, FedAdagrad.set_v_t (Some v) self).
Proof.
  intros Ev E1 E2 Ld.
  destruct (aggregate_fit_first_call super_aggregate_fit self rnd results failures
              previous_weights fedavg_aggregate delta_t Ev E1 E2) as (w & v & Ecall & Hv).
  assert (Lv : length v = length delta_t).
  { subst v. unfold np_zeros_like. rewrite !length_zip_with, length_fmap. lia. }
  exists w, v. split; [exact Ecall |]. split; [exact Lv |].
  intros rnd' results' failures' previous_weights' agg' delta_t' E1' E2'.
  apply aggregate_fit_ambiguous with (agg := agg') (delta_t := delta_t') (v := v);
    try assumption; [reflexivity | lia].
Qed.

Lemma aggregate_fit_second_round_ambiguous_witness :
  exists w v,
    FedAdagrad.aggregate_fit (yields [[2; 2]%float]) 1 [] [] [[0; 0]%float] fresh_FedAdagrad
    = (Return (Some [w]), FedAdagrad.set_v_t (Some v) fresh_FedAdagrad)
    /\ length v = 2%nat
    /\ forall rnd' results' failures' previous_weights' fedavg_aggregate' delta_t',
         yields [[2; 2]%float] (FedAdagrad.set_v_t (Some v) fresh_FedAdagrad)
           rnd' results' failures' = Return (Some fedavg_aggregate') ->
         FedAdagrad.aggregated_updates fedavg_aggregate' previous_weights' = Return delta_t' ->
         FedAdagrad.aggregate_fit (yields [[2; 2]%float]) rnd' results' failures'
           previous_weights' (FedAdagrad.set_v_t (Some v) fresh_FedAdagrad)
         = (Raise ambiguous_error, FedAdagrad.set_v_t (Some v) fresh_FedAdagrad).
Proof.
  apply (aggregate_fit_second_round_ambiguous (yields [[2; 2]%float]) fresh_FedAdagrad
           1 [] [] [[0; 0]%float] [[2; 2]%float] [2; 2]%float).
  - reflexivity.
  - reflexivity.
  - vm_compute. reflexivity.
  - simpl. lia.
Defined.

(** ** The worked example of the specification, in binary64 *)

(** C2. On a fresh object with [eta = 0.1] and [tau = 1e-9], a round with
    [previous_weights = [[0]]] for which the inherited aggregation yields
    [[2]] (so [delta_t = [2]]) leaves [v_t = [4]] and returns
    [0 + 0.1 * 2 / (sqrt 4 + 1e-9)], within [1e-9] of [0.1]; the same round
    again finds the accumulator of the first, leaves [v_t = [8]] and
    returns [0 + 0.1 * 2 / (sqrt 8 + 1e-9)]. *)
Theorem accumulator_persists_across_rounds
    (super_aggregate_fit : FedAdagrad.super_method float) (self : FedAdagrad.t float)
    (rnd rnd' : Z) (results results' : list (ClientProxy * FitRes float))
    (failures failures' : list BaseException) :
  FedAdagrad.v_t self = None ->
  FedAdagrad.eta self = 0.1%float ->
  FedAdagrad.tau self = 1e-9%float ->
  (forall s, super_aggregate_fit s rnd results failures = Return (Some [[2%float]])) ->
  (forall s, super_aggregate_fit s rnd' results' failures' = Return (Some [[2%float]])) ->
  exists p1 p2 : float,
    FedAdagrad.aggregate_fit super_aggregate_fit rnd results failures [[0%float]] self
    = (Return (Some [[p1]]), FedAdagrad.set_v_t (Some [4%float]) self)
    /\ FedAdagrad.aggregate_fit super_aggregate_fit rnd' results' failures' [[0%float]]
         (FedAdagrad.set_v_t (Some [4%float]) self)
       = (Return (Some [[p2]]), FedAdagrad.set_v_t (Some [8%float]) self)
    /\ p1 = (0 + 0.1 * 2 / (PrimFloat.sqrt 4 + 1e-9))%float
    /\ (PrimFloat.abs (p1 - 0.1) <? 1e-9)%float = true
    /\ p2 = (0 + 0.1 * 2 / (PrimFloat.sqrt 8 + 1e-9))%float.
Proof.
  intros Ev Eeta Etau E1 E2.
  exists (0 + 0.1 * 2 / (PrimFloat.sqrt 4 + 1e-9))%float,
         (0 + 0.1 * 2 / (PrimFloat.sqrt 8 + 1e-9))%float.
  destruct self as [ff fe mf me ma af e el t v]. cbn in Ev, Eeta, Etau. subst v e t.
  repeat split.
  - unfold FedAdagrad.aggregate_fit, seq, expr, assign, ret. rewrite E1.
    vm_compute. reflexivity.
  - unfold FedAdagrad.aggregate_fit, seq, expr, assign, ret. rewrite E2.
    vm_compute. reflexivity.
Qed.

Lemma accumulator_persists_across_rounds_witness :
  exists p1 p2 : float,
    FedAdagrad.aggregate_fit (yields [[2%float]]) 1 [] [] [[0%float]] fresh_FedAdagrad
    = (Return (Some [[p1]]), FedAdagrad.set_v_t (Some [4%float]) fresh_FedAdagrad)
    /\ FedAdagrad.aggregate_fit (yields [[2%float]]) 2 [] [] [[0%float]]
         (FedAdagrad.set_v_t (Some [4%float]) fresh_FedAdagrad)
       = (Return (Some [[p2]]), FedAdagrad.set_v_t (Some [8%float]) fresh_FedAdagrad)
    /\ p1 = (0 + 0.1 * 2 / (PrimFloat.sqrt 4 + 1e-9))%float
    /\ (PrimFloat.abs (p1 - 0.1) <? 1e-9)%float = true
    /\ p2 = (0 + 0.1 * 2 / (PrimFloat.sqrt 8 + 1e-9))%float.
Proof.
  apply (accumulator_persists_across_rounds (yields [[2%float]]) fresh_FedAdagrad
           1 2 [] [] [] []); reflexivity.
Defined.

(** ** Lazy initialisation by a truth-value test *)

(** The two rounds of [zeros_twice]: the aggregate and the previous
    parameters are both one tensor of two zeros, so [delta_t = [0, 0]]. *)
Lemma zeros_delta_t :
  FedAdagrad.aggregated_updates [[0; 0]%float] [[0; 0]%float] = Return [0; 0]%float.
Proof. vm_compute. reflexivity. Qed.

(** Where the truth-value test returns and says what the test for [None]
    says, the source and the variant do the same. This is so on a fresh
    object, and on an accumulator of one element that is not zero. *)
Lemma explicit_init_agrees {F : Type} `{Dtype F}
    (super_aggregate_fit : FedAdagrad.super_method F) (self : FedAdagrad.t F) (rnd : Z)
    (results : list (ClientProxy * FitRes F)) (failures : list BaseException)
    (previous_weights : Weights F) :
  FedAdagrad.not_v_t (FedAdagrad.v_t self)
  = Return (match FedAdagrad.v_t self with None => true | Some _ => false end) ->
  FedAdagrad.aggregate_fit super_aggregate_fit rnd results failures previous_weights self
  = aggregate_fit_explicit_init super_aggregate_fit rnd results failures
      previous_weights self.
Proof.
  intros E. unfold FedAdagrad.aggregate_fit, aggregate_fit_explicit_init, seq, expr.
  destruct (super_aggregate_fit self rnd results failures) as [[agg |] | e];
    try reflexivity.
  destruct (FedAdagrad.aggregated_updates agg previous_weights) as [delta_t | e];
    try reflexivity.
  rewrite E. reflexivity.
Qed.

(** C5. There is a sequence of rounds whose first [delta_t] is all zeros on
    which the source, which initialises the accumulator when [not self.v_t],
    and the variant that initialises it when it is [None] differ: two rounds
    with [delta_t = [0, 0]]. The source raises in the second round, the
    variant returns parameters. *)
Theorem lazy_initialisation_differs_from_explicit :
  exists calls : list (Weights float * Weights float),
    let source :=
      fst (rounds (map (fun c => FedAdagrad.aggregate_fit (yields (fst c)) 1 [] [] (snd c))
                     calls) fresh_FedAdagrad) in
    let variant :=
      fst (rounds (map (fun c => aggregate_fit_explicit_init (yields (fst c)) 1 [] [] (snd c))
                     calls) fresh_FedAdagrad) in
    (exists agg previous_weights rest delta_t,
        calls = (agg, previous_weights) :: rest
        /\ FedAdagrad.aggregated_updates agg previous_weights = Return delta_t
        /\ delta_t <> []
        /\ Forall (fun x => x = 0%float) delta_t)
    /\ source <> variant
    /\ source = [Return (Some [[0; 0]%float]); Raise ambiguous_error]
    /\ variant = [Return (Some [[0; 0]%float]); Return (Some [[0; 0]%float])].
Proof.
  exists [([[0; 0]%float], [[0; 0]%float]); ([[0; 0]%float], [[0; 0]%float])].
  intros source variant.
  assert (Es : source = [Return (Some [[0; 0]%float]); Raise ambiguous_error])
    by (vm_compute; reflexivity).
  assert (Ev : variant = [Return (Some [[0; 0]%float]); Return (Some [[0; 0]%float])])
    by (vm_compute; reflexivity).
  split_and!; try assumption.
  - exists [[0; 0]%float], [[0; 0]%float], [([[0; 0]%float], [[0; 0]%float])], [0; 0]%float.
    split_and!; [reflexivity | exact zeros_delta_t | discriminate | repeat constructor].
  - rewrite Es, Ev. discriminate.
Qed.

(** ** The guard on a multi-element accumulator, at a concrete input *)

(** C1 (where the code departs from it). Two rounds on a fresh object with
    a tensor of two elements, [previous_weights = [[0, 0]]] and an
    aggregate [[2, 2]]: the first applies the update and leaves
    [v_t = [4, 4]]; in the second the inherited aggregation again yields a
    result, yet the call raises [ValueError] at [not self.v_t], the
    accumulator stays [[4, 4]] and no parameters are returned. *)
Theorem second_round_applies_no_update :
  rounds [FedAdagrad.aggregate_fit (yields [[2; 2]%float]) 1 [] [] [[0; 0]%float];
          FedAdagrad.aggregate_fit (yields [[2; 2]%float]) 2 [] [] [[0; 0]%float]]
    fresh_FedAdagrad
  = ([Return (Some [[0 + 0.1 * 2 / (PrimFloat.sqrt 4 + 1e-9);
                      0 + 0.1 * 2 / (PrimFloat.sqrt 4 + 1e-9)]%float]);
      Raise ambiguous_error],
     FedAdagrad.set_v_t (Some [4; 4]%float) fresh_FedAdagrad).
Proof. vm_compute. reflexivity. Qed.

(** ** Failing closed *)

(** The modelled [FedAvg.aggregate_fit] gives no result when failures are
    not accepted and there is one. *)
Lemma FedAvg_fails_closed {F : Type} `{Dtype F} (rnd : Z)
    (results : list (ClientProxy * FitRes F)) (failures : list BaseException) :
  failures <> [] -> FedAvg.aggregate_fit false rnd results failures = Return None.
Proof.
  intros Hf. unfold FedAvg.aggregate_fit. destruct failures; [congruence |]. reflexivity.
Qed.

(** C3. When [accept_failures] is false and [failures] is not empty,
    [aggregate_fit] returns [None] and the object, its accumulator [v_t]
    included, is as before the call. *)
Theorem aggregate_fit_fails_closed {F : Type} `{Dtype F}
    (self : FedAdagrad.t F) (rnd : Z) (results : list (ClientProxy * FitRes F))
    (failures : list BaseException) (previous_weights : Weights F) :
  FedAdagrad.accept_failures self = false ->
  failures <> [] ->
  FedAdagrad.aggregate_fit inherited rnd results failures previous_weights self
  = (Return None, self).
Proof.
  intros Ha Hf. apply aggregate_fit_no_result.
  unfold inherited. rewrite Ha. apply FedAvg_fails_closed. exact Hf.
Qed.

Lemma aggregate_fit_fails_closed_witness :
  let self := FedAdagrad.set_v_t (Some [4%float])
                (FedAdagrad.init 0.1 0.1 2 2 2 false 0.1 0.1 1e-9)%float in
  FedAdagrad.aggregate_fit inherited 2
    [({| cid := "a" |}, {| parameters := [[2%float]]; num_examples := 10 |})]
    [ValueError "timeout"] [[0%float]] self
  = (Return None, self).
Proof.
  apply (aggregate_fit_fails_closed
           (FedAdagrad.set_v_t (Some [4%float])
              (FedAdagrad.init 0.1 0.1 2 2 2 false 0.1 0.1 1e-9)%float)
           2 [({| cid := "a" |}, {| parameters := [[2%float]]; num_examples := 10 |})]
           [ValueError "timeout"] [[0%float]]).
  - reflexivity.
  - discriminate.
Defined.

(** ** server.py *)

(** C6. With [strategy] one of ["fast-and-slow"], ["fedfs-v0"] and
    ["fedfs-v1"] and no [training_round_timeout], [main] raises
    [ValueError] after the logger, the data, the model and the client
    manager were set up: no strategy is constructed, no server is
    instantiated and none is started. *)
Theorem main_requires_training_round_timeout
    (server_setting : Server.ServerSetting) (trace : list Server.event) :
  Server.strategy server_setting = "fast-and-slow"
  \/ Server.strategy server_setting = "fedfs-v0"
  \/ Server.strategy server_setting = "fedfs-v1" ->
  Server.training_round_timeout server_setting = None ->
  exists (msg : string) (done : list Server.event),
    Server.main server_setting trace = (Raise (ValueError msg), (trace ++ done)%list)
    /\ msg = "No `training_round_timeout` set for `" +:+ Server.strategy server_setting
             +:+ "` strategy"
    /\ done = [Server.ev_parse_args; Server.ev_configure; Server.ev_get_setting;
               Server.ev_log "INFO" "server_setting: %s"; Server.ev_load_data;
               Server.ev_load_model; Server.ev_SimpleClientManager]
    /\ Forall (fun e => Server.starts_server e = false) done.
Proof.
  intros Hs Ht.
  destruct server_setting as [s r d lr pu sf ms mn t ts im dy al].
  cbn in Hs, Ht. subst t.
  eexists _, _. split; [| split; [reflexivity | split; [reflexivity |]]].
  - destruct Hs as [-> | [-> | ->]];
      unfold Server.main, Server.timeout_strategy, seq, Server.emit, assign, ret, raise;
      cbn; rewrite <- !app_assoc; reflexivity.
  - repeat constructor.
Qed.

Lemma main_requires_training_round_timeout_witness :
  exists (msg : string) (done : list Server.event),
    Server.main (example_setting "fedfs-v0" None) []
    = (Raise (ValueError msg), ([] ++ done)%list)
    /\ msg = "No `training_round_timeout` set for `" +:+ "fedfs-v0" +:+ "` strategy"
    /\ done = [Server.ev_parse_args; Server.ev_configure; Server.ev_get_setting;
               Server.ev_log "INFO" "server_setting: %s"; Server.ev_load_data;
               Server.ev_load_model; Server.ev_SimpleClientManager]
    /\ Forall (fun e => Server.starts_server e = false) done.
Proof.
  apply (main_requires_training_round_timeout (example_setting "fedfs-v0" None) []).
  - right. left. reflexivity.
  - reflexivity.
Defined.

(** The dictionary literal of [fit_config] holds strings only. *)
Lemma fit_config_literal_strings (float_str : float -> string) (lr_initial : float)
    (partial_updates : bool) (rnd : Z) :
  map_Forall (fun _ v => Server.is_str v)
    (<["epoch_global" := Server.PyStr (Server.str float_str (Server.PyInt rnd))]>
     (<["epochs" := Server.PyStr (Server.str float_str (Server.PyInt 1))]>
      (<["batch_size" := Server.PyStr (Server.str float_str (Server.PyInt 10))]>
       (<["lr_initial" := Server.PyStr (Server.str float_str (Server.PyFloat lr_initial))]>
        (<["lr_decay" := Server.PyStr (Server.str float_str (Server.PyFloat 0.99%float))]>
         (<["partial_updates" := Server.PyStr (if partial_updates then "1" else "0")]>
            (∅ : Server.dict))))))).
Proof.
  repeat (apply map_Forall_insert_2; [exact I |]). apply map_Forall_empty.
Qed.

(** C8. For every round number the closure returned by
    [get_on_fit_config_fn] allocates a dictionary that was not on the heap
    before (and leaves every other object alone); all of its values are
    strings, ["epoch_global"] maps to [str(rnd)], and ["timeout"] is a key
    exactly when a timeout was configured, mapping to [str(timeout)]. *)
Theorem fit_config_fresh_string_mapping (float_str : float -> string)
    (lr_initial : float) (timeout : option Z) (partial_updates : bool)
    (rnd : Z) (h : Server.heap) :
  exists (config : Server.addr) (d : Server.dict),
    Server.get_on_fit_config_fn float_str lr_initial timeout partial_updates rnd h
    = (Return config, <[config := d]> h)
    /\ h !! config = None
    /\ map_Forall (fun _ v => Server.is_str v) d
    /\ d !! "epoch_global" = Some (Server.PyStr (pretty rnd))
    /\ d !! "timeout" = (fun t : Z => Server.PyStr (pretty t)) <$> timeout
    /\ (is_Some (d !! "timeout") <-> is_Some timeout).
Proof.
  pose proof (is_fresh (dom h)) as Hfresh. apply not_elem_of_dom_1 in Hfresh.
  pose proof (fit_config_literal_strings float_str lr_initial partial_updates rnd) as Hlit.
  unfold Server.get_on_fit_config_fn, seq, Server.new_dict, Server.setitem, assign, ret.
  destruct timeout as [t |].
  - eexists _, _. split; [| split; [exact Hfresh |]].
    + rewrite alter_insert_eq. reflexivity.
    + split; [apply map_Forall_insert_2; [exact I | exact Hlit] |].
      split; [reflexivity |]. split; [reflexivity |].
      cbn. split; intros _; eauto.
  - eexists _, _. split; [reflexivity | split; [exact Hfresh |]].
    split; [exact Hlit |]. split; [reflexivity |]. split; [reflexivity |].
    cbn. split; intros Hs; destruct Hs as [? Hs]; discriminate Hs.
Qed.

(** ** One tensor out, whatever came in *)

Section FirstTensor.
Context {F : Type} `{Dtype F}.
Variable super_aggregate_fit : FedAdagrad.super_method F.

(** The call reads [previous_weights] and the aggregate at index 0 only. *)
Lemma aggregated_updates_first (agg previous_weights : Weights F) (a0 p0 : ndarray F) :
  agg !! 0%nat = Some a0 -> previous_weights !! 0%nat = Some p0 ->
  length a0 = length p0 ->
  FedAdagrad.aggregated_updates agg previous_weights = Return (zip_with subtract a0 p0).
Proof.
  intros Ea Ep El. unfold FedAdagrad.aggregated_updates.
  rewrite (getitem_lookup _ _ _ Ea), (getitem_lookup _ _ _ Ep). cbn.
  apply ufunc2_same_length. exact El.
Qed.

(** Line 88 on an accumulator that fits. *)
Lemma not_v_t_fits (v : option (ndarray F)) (delta_t : ndarray F) :
  accumulator_fits v (length delta_t) ->
  exists unset acc,
    FedAdagrad.not_v_t v = Return unset
    /\ accumulator_read v delta_t unset = Some acc
    /\ length acc = length delta_t
    /\ forall i, (i < length delta_t)%nat -> acc !! i = Some (accumulator_at v).
Proof.
  destruct v as [[| x [| y a]] |]; cbn.
  - intros [E _]. exists true, (np_zeros_like delta_t).
    split_and!; try reflexivity.
    + unfold np_zeros_like. apply length_fmap.
    + intros i Hi. lia.
  - intros [E _]. destruct (nonzero x) eqn:Ex; cbn.
    + exists false, [x]. split_and!; try reflexivity; try exact E.
      intros i Hi. destruct i; [reflexivity | lia].
    + exists true, (np_zeros_like delta_t). split_and!; try reflexivity.
      * unfold np_zeros_like. apply length_fmap.
      * intros i Hi. unfold np_zeros_like. rewrite list_lookup_fmap.
        destruct (lookup_lt_is_Some_2 delta_t i Hi) as [d ->]. reflexivity.
  - intros [E Hn]. lia.
  - intros _. exists true, (np_zeros_like delta_t). split_and!; try reflexivity.
    + unfold np_zeros_like. apply length_fmap.
    + intros i Hi. unfold np_zeros_like. rewrite list_lookup_fmap.
      destruct (lookup_lt_is_Some_2 delta_t i Hi) as [d ->]. reflexivity.
Qed.

(** A call on well-shaped arguments: one tensor comes back, the Adagrad
    update of the first. *)
Lemma aggregate_fit_first_tensor self rnd results failures previous_weights agg
    (a0 p0 : ndarray F) :
  super_aggregate_fit self rnd results failures = Return (Some agg) ->
  agg !! 0%nat = Some a0 ->
  previous_weights !! 0%nat = Some p0 ->
  length a0 = length p0 ->
  accumulator_fits (FedAdagrad.v_t self) (length p0) ->
  exists w v,
    FedAdagrad.aggregate_fit super_aggregate_fit rnd results failures previous_weights self
    = (Return (Some [w]), FedAdagrad.set_v_t (Some v) self)
    /\ length w = length p0
    /\ length v = length p0
    /\ forall i p a,
         p0 !! i = Some p -> a0 !! i = Some a ->
         let d := subtract a p in
         let x := add (accumulator_at (FedAdagrad.v_t self)) (multiply d d) in
         v !! i = Some x
         /\ w !! i = Some (add p (divide (multiply (FedAdagrad.eta self) d)
                                    (add (sqrt_ x) (FedAdagrad.tau self)))).
Proof.
  intros E1 Ea Ep El Hfit.
  set (d := zip_with subtract a0 p0).
  assert (Ld : length d = length p0).
  { unfold d. rewrite length_zip_with. lia. }
  destruct (not_v_t_fits (FedAdagrad.v_t self) d) as (unset & acc & En & Er & Lacc & Hacc).
  { rewrite Ld. exact Hfit. }
  set (v := zip_with add acc (zip_with multiply d d)).
  assert (Lv : length v = length p0).
  { unfold v. rewrite !length_zip_with. lia. }
  set (q := zip_with divide (scalar_mul (FedAdagrad.eta self) d)
              (add_scalar (np_sqrt v) (FedAdagrad.tau self))).
  assert (Lq : length q = length p0).
  { unfold q, scalar_mul, add_scalar, np_sqrt. rewrite length_zip_with, !length_fmap. lia. }
  exists (zip_with add p0 q), v. split_and!.
  - apply aggregate_fit_returns
      with (agg := agg) (delta_t := d) (unset := unset) (d2 := zip_with multiply d d).
    + exact E1.
    + apply aggregated_updates_first; assumption.
    + exact En.
    + apply ufunc2_same_length. reflexivity.
    + rewrite Er. cbn. apply ufunc2_same_length. rewrite length_zip_with. lia.
    + unfold FedAdagrad.updated_weights. rewrite (getitem_lookup _ _ _ Ep). cbn.
      unfold nd_truediv. rewrite ufunc2_same_length.
      2:{ unfold scalar_mul, add_scalar, np_sqrt. rewrite !length_fmap. lia. }
      cbn. apply ufunc2_same_length. fold q. lia.
  - rewrite length_zip_with. lia.
  - exact Lv.
  - intros i p a Hp Ha d' x.
    assert (Hi : (i < length d)%nat).
    { rewrite Ld. apply lookup_lt_Some with (x := p). exact Hp. }
    assert (Hd : d !! i = Some d').
    { unfold d. rewrite lookup_zip_with, Ha, Hp. reflexivity. }
    assert (Hv : v !! i = Some x).
    { unfold v. rewrite !lookup_zip_with, (Hacc i Hi), Hd. reflexivity. }
    split; [exact Hv |].
    unfold q, scalar_mul, add_scalar, np_sqrt.
    rewrite !lookup_zip_with, !list_lookup_fmap, Hp, Hd, Hv. reflexivity.
Qed.

End FirstTensor.

(** ** The weighted average and the order of the results *)

Section Broadcast.
Context {F : Type} `{Dtype F}.
Variable op : F -> F -> F.
Hypothesis op_comm : forall x y, op x y = op y x.

Lemma zip_with_op_comm (a b : list F) : zip_with op a b = zip_with op b a.
Proof.
  revert b. induction a as [| x a IH]; intros [| y b]; cbn; try reflexivity.
  rewrite (op_comm x y), (IH b). reflexivity.
Qed.

Lemma broadcast_comm (a b : ndarray F) : broadcast op a b = broadcast op b a.
Proof.
  unfold broadcast.
  destruct (decide (length a = length b)) as [E | N].
  - rewrite decide_True by (symmetry; exact E). rewrite zip_with_op_comm. reflexivity.
  - rewrite decide_False by (intros E; apply N; symmetry; exact E).
    destruct a as [| x [| x' a]], b as [| y [| y' b]]; try reflexivity;
      try (exfalso; apply N; reflexivity);
      f_equal; apply list_fmap_ext; intros; apply op_comm.
Qed.

End Broadcast.

(** A list of at most two elements has two orders at most. *)
Lemma permutation_at_most_two {A} (l l' : list A) :
  (length l <= 2)%nat -> l ≡ₚ l' ->
  l' = l \/ exists x y, l = [x; y] /\ l' = [y; x].
Proof.
  destruct l as [| x [| y [| z l]]]; cbn; intros Hl Hp.
  - left. apply Permutation_nil. exact Hp.
  - left. apply Permutation_length_1_inv. exact Hp.
  - destruct (Permutation_length_2_inv Hp) as [-> | ->]; [left | right]; eauto.
  - lia.
Qed.

Section WeightedAverage.
Context {F : Type} `{Dtype F}.

Section TwoResults.
Hypothesis add_commutes : forall x y : F, add x y = add y x.

Lemma layer_add_comm (x y : option (ndarray F)) :
  FedAvg.layer_add x y = FedAvg.layer_add y x.
Proof.
  destruct x as [a |], y as [b |]; cbn; try reflexivity.
  apply broadcast_comm. apply add_commutes.
Qed.

Lemma layers_add_comm (a b : list (option (ndarray F))) :
  zip_with FedAvg.layer_add a b = zip_with FedAvg.layer_add b a.
Proof.
  revert b. induction a as [| x a IH]; intros [| y b]; cbn; try reflexivity.
  rewrite (layer_add_comm x y), (IH b). reflexivity.
Qed.

(** Two results average to the same tensors in either order: one addition
    per element, and addition commutes. *)
Lemma FedAvg_aggregate_fit_swap (accept_failures : bool) (rnd : Z)
    (r1 r2 : ClientProxy * FitRes F) (failures : list BaseException) :
  FedAvg.aggregate_fit accept_failures rnd [r1; r2] failures
  = FedAvg.aggregate_fit accept_failures rnd [r2; r1] failures.
Proof.
  unfold FedAvg.aggregate_fit. cbn.
  rewrite (layers_add_comm (FedAvg.weighted r1.2)).
  rewrite !Z.add_0_r, (Z.add_comm (num_examples r1.2)). reflexivity.
Qed.

Lemma FedAvg_aggregate_fit_at_most_two (accept_failures : bool) (rnd : Z)
    (results results' : list (ClientProxy * FitRes F)) (failures : list BaseException) :
  (length results <= 2)%nat -> results ≡ₚ results' ->
  FedAvg.aggregate_fit accept_failures rnd results failures
  = FedAvg.aggregate_fit accept_failures rnd results' failures.
Proof.
  intros Hl Hp.
  destruct (permutation_at_most_two results results' Hl Hp) as [-> | (r1 & r2 & -> & ->)].
  - reflexivity.
  - apply FedAvg_aggregate_fit_swap.
Qed.

End TwoResults.

(** The average of one client's tensors is that client's tensors once the
    weight cancels on each of their elements. *)
Lemma averaged_one (r : FitRes F) :
  Forall (Forall (fun x => divide (multiply x (of_int (num_examples r)))
                             (of_int (num_examples r)) = x)) (parameters r) ->
  FedAvg.averaged (of_int (num_examples r)) (FedAvg.weighted r) = Return (parameters r).
Proof.
  unfold FedAvg.weighted.
  induction 1 as [| layer layers Hlayer _ IH]; cbn; [reflexivity |].
  rewrite IH. cbn. do 2 f_equal.
  unfold div_scalar, mul_scalar. rewrite <- list_fmap_compose.
  rewrite <- (list_fmap_id layer) at 2. apply Forall_fmap_ext_1.
  exact Hlayer.
Qed.

Lemma FedAvg_aggregate_fit_one (accept_failures : bool) (rnd : Z)
    (c : ClientProxy) (r : FitRes F) (failures : list BaseException) :
  accept_failures = true \/ failures = [] ->
  Forall (Forall (fun x => divide (multiply x (of_int (num_examples r)))
                             (of_int (num_examples r)) = x)) (parameters r) ->
  FedAvg.aggregate_fit accept_failures rnd [(c, r)] failures = Return (Some (parameters r)).
Proof.
  intros Hf Hn. unfold FedAvg.aggregate_fit.
  replace (negb accept_failures && negb (bool_decide (length failures = 0%nat)))
    with false
    by (destruct Hf as [-> | ->]; [reflexivity | destruct accept_failures; reflexivity]).
  cbn. rewrite Z.add_0_r, (averaged_one r Hn). reflexivity.
Qed.

End WeightedAverage.

(** *** Addition in binary64 *)

(** IEEE addition commutes, NaN, infinities and signed zeros included. *)
Lemma SFadd_comm (prec emax : Z) (x y : spec_float) :
  SFadd prec emax x y = SFadd prec emax y x.
Proof.
  destruct x as [sx | sx | | sx mx ex], y as [sy | sy | | sy my ey];
    try reflexivity; try (destruct sx, sy; reflexivity).
  cbn [SFadd]. rewrite (Z.min_comm ey ex), Z.add_comm. reflexivity.
Qed.

Lemma float64_add_comm (x y : float) : add x y = add y x.
Proof.
  cbn. apply Prim2SF_inj. rewrite !FloatAxioms.add_spec. apply SFadd_comm.
Qed.

(** The call sees the round's results through the inherited aggregation
    only. *)
Lemma aggregate_fit_super_ext {F : Type} `{Dtype F}
    (super super' : FedAdagrad.super_method F) (self : FedAdagrad.t F)
    (rnd rnd' : Z) (results results' : list (ClientProxy * FitRes F))
    (failures failures' : list BaseException) (previous_weights : Weights F) :
  super self rnd results failures = super' self rnd' results' failures' ->
  FedAdagrad.aggregate_fit super rnd results failures previous_weights self
  = FedAdagrad.aggregate_fit super' rnd' results' failures' previous_weights self.
Proof.
  intros E. unfold FedAdagrad.aggregate_fit, seq, expr. rewrite E. reflexivity.
Qed.

(** C7 (as it holds in [float64]). With the inherited aggregation the
    weighted average of the specification, on the [float64] the code
    computes in: for a list of at most two results and any permutation of
    it, [aggregate_fit] gives the same outcome and leaves the same
    accumulator, binary64 addition being commutative; and for a single
    result (the round not failing closed) on whose parameters the weight
    cancels, [(x * w) / w = x] for each element [x] and [w] the client's
    [num_examples], the aggregate is that client's parameters, so that the
    call is the one whose [delta_t] is the client's first tensor minus the
    first tensor of [previous_weights]. *)
Theorem aggregate_fit_order_invariant_up_to_two
    (self : FedAdagrad.t float) (rnd : Z)
    (results results' : list (ClientProxy * FitRes float))
    (failures : list BaseException) (previous_weights : Weights float)
    (c : ClientProxy) (r : FitRes float) :
  ((length results <= 2)%nat -> results ≡ₚ results' ->
     FedAdagrad.aggregate_fit inherited rnd results failures previous_weights self
     = FedAdagrad.aggregate_fit inherited rnd results' failures previous_weights self)
  /\ (FedAdagrad.accept_failures self = true \/ failures = [] ->
      Forall (Forall (fun x => divide (multiply x (of_int (num_examples r)))
                                 (of_int (num_examples r)) = x)) (parameters r) ->
      inherited self rnd [(c, r)] failures = Return (Some (parameters r))
      /\ FedAdagrad.aggregate_fit inherited rnd [(c, r)] failures previous_weights self
         = FedAdagrad.aggregate_fit (yields (parameters r)) rnd [(c, r)] failures
             previous_weights self).
Proof.
  split.
  - intros Hl Hp. apply aggregate_fit_super_ext. unfold inherited.
    apply FedAvg_aggregate_fit_at_most_two; [exact float64_add_comm | exact Hl | exact Hp].
  - intros Hf Hn.
    assert (E : inherited self rnd [(c, r)] failures = Return (Some (parameters r))).
    { unfold inherited. apply FedAvg_aggregate_fit_one; assumption. }
    split; [exact E |]. apply aggregate_fit_super_ext. rewrite E. reflexivity.
Qed.

Lemma aggregate_fit_order_invariant_up_to_two_witness :
  let a := ({| cid := "a" |}, {| parameters := [[0.1%float]]; num_examples := 10 |}) in
  let b := ({| cid := "b" |}, {| parameters := [[0.7%float]]; num_examples := 30 |}) in
  let r := {| parameters := [[2; 0.5]%float]; num_examples := 10 |} in
  FedAdagrad.aggregate_fit inherited 1 [a; b] [] [[0%float]] fresh_FedAdagrad
  = FedAdagrad.aggregate_fit inherited 1 [b; a] [] [[0%float]] fresh_FedAdagrad
  /\ inherited fresh_FedAdagrad 1%Z [({| cid := "c" |}, r)] [] = Return (Some [[2; 0.5]%float]).
Proof.
  intros a b r.
  destruct (aggregate_fit_order_invariant_up_to_two fresh_FedAdagrad 1 [a; b] [b; a] []
              [[0%float]] {| cid := "c" |} r) as [Hperm Hone].
  split.
  - apply Hperm; [cbn; lia | apply perm_swap].
  - apply Hone; [right; reflexivity |].
    repeat constructor; vm_compute; reflexivity.
Defined.

(** Against C7 as the specification has it: in binary64 the order of
    three results shows in the outcome, and the weight of a single result
    need not cancel: with three clients of one
    example each holding [1e16], [1] and [-1e16], the sum taken as
    [1e16 + (1 + -1e16)] is [0] and taken as [1 + (1e16 + -1e16)] is [1], so
    that the two orders average to [0] and to [1/3] and the calls return
    different parameters; and one client with three examples holding [0.1]
    averages to [0.1 * 3 / 3 = 0.10000000000000002]. *)
Lemma aggregate_fit_three_results_order_matters :
  let a := ({| cid := "a" |}, {| parameters := [[1e16%float]]; num_examples := 1 |}) in
  let b := ({| cid := "b" |}, {| parameters := [[1%float]]; num_examples := 1 |}) in
  let c := ({| cid := "c" |}, {| parameters := [[(-1e16)%float]]; num_examples := 1 |}) in
  let d := ({| cid := "d" |}, {| parameters := [[0.1%float]]; num_examples := 3 |}) in
  [a; b; c] ≡ₚ [b; a; c]
  /\ inherited fresh_FedAdagrad 1%Z [a; b; c] [] = Return (Some [[0%float]])
  /\ inherited fresh_FedAdagrad 1%Z [b; a; c] [] = Return (Some [[0.3333333333333333%float]])
  /\ fst (FedAdagrad.aggregate_fit inherited 1 [a; b; c] [] [[0%float]] fresh_FedAdagrad)
     = Return (Some [[0%float]])
  /\ fst (FedAdagrad.aggregate_fit inherited 1 [b; a; c] [] [[0%float]] fresh_FedAdagrad)
     = Return (Some [[0.0999999997%float]])
  /\ FedAdagrad.aggregate_fit inherited 1 [a; b; c] [] [[0%float]] fresh_FedAdagrad
     <> FedAdagrad.aggregate_fit inherited 1 [b; a; c] [] [[0%float]] fresh_FedAdagrad
  /\ inherited fresh_FedAdagrad 1%Z [d] [] = Return (Some [[0.10000000000000002%float]])
  /\ inherited fresh_FedAdagrad 1%Z [d] [] <> Return (Some (parameters (snd d))).
Proof.
  intros a b c d.
  split_and!; try (vm_compute; reflexivity).
  - apply perm_swap.
  - intros E.
    apply (f_equal (fun o => match fst o with
                             | Return (Some [[w]]) => PrimFloat.eqb w 0
                             | _ => false
                             end)) in E.
    vm_compute in E. discriminate E.
  - intros E.
    apply (f_equal (fun o => match o with
                             | Return (Some [[w]]) => PrimFloat.eqb w 0.1
                             | _ => false
                             end)) in E.
    vm_compute in E. discriminate E.
Qed.

(** ** The tensors after the first *)

(** [previous_weights] is read at index 0 only. *)
Lemma aggregate_fit_reads_first_tensor {F : Type} `{Dtype F}
    (super_aggregate_fit : FedAdagrad.super_method F) (self : FedAdagrad.t F) (rnd : Z)
    (results : list (ClientProxy * FitRes F)) (failures : list BaseException)
    (previous_weights previous_weights' : Weights F) :
  previous_weights !! 0%nat = previous_weights' !! 0%nat ->
  FedAdagrad.aggregate_fit super_aggregate_fit rnd results failures previous_weights self
  = FedAdagrad.aggregate_fit super_aggregate_fit rnd results failures previous_weights' self.
Proof.
  intros E.
  unfold FedAdagrad.aggregate_fit, FedAdagrad.aggregated_updates,
    FedAdagrad.updated_weights, getitem.
  rewrite E. reflexivity.
Qed.

(** C4 (as the code has it). Whatever the number [n >= 1] of tensors in
    [previous_weights], a call on well-shaped arguments (the first tensors
    of the aggregate and of [previous_weights] of one length, the
    accumulator unset or of that length with at most one element) returns a
    list of exactly one tensor. That tensor is the update of the first:
    element by element [p + eta * d / (sqrt v + tau)] with
    [d = a - p] and [v] the accumulator's element plus [d * d]. The tensors
    of [previous_weights] after the first do not matter to the call. *)
Theorem aggregate_fit_updates_first_tensor_only {F : Type} `{Dtype F}
    (super_aggregate_fit : FedAdagrad.super_method F) (self : FedAdagrad.t F) (rnd : Z)
    (results : list (ClientProxy * FitRes F)) (failures : list BaseException)
    (previous_weights fedavg_aggregate : Weights F) (a0 p0 : ndarray F) :
  super_aggregate_fit self rnd results failures = Return (Some fedavg_aggregate) ->
  fedavg_aggregate !! 0%nat = Some a0 ->
  previous_weights !! 0%nat = Some p0 ->
  length a0 = length p0 ->
  accumulator_fits (FedAdagrad.v_t self) (length p0) ->
  exists (weights : Weights F) (w v : ndarray F),
    FedAdagrad.aggregate_fit super_aggregate_fit rnd results failures previous_weights self
    = (Return (Some weights), FedAdagrad.set_v_t (Some v) self)
    /\ weights = [w]
    /\ length weights = 1%nat
    /\ length w = length p0
    /\ (forall i p a,
          p0 !! i = Some p -> a0 !! i = Some a ->
          let d := subtract a p in
          let x := add (accumulator_at (FedAdagrad.v_t self)) (multiply d d) in
          v !! i = Some x
          /\ w !! i = Some (add p (divide (multiply (FedAdagrad.eta self) d)
                                     (add (sqrt_ x) (FedAdagrad.tau self)))))
    /\ (forall rest,
          FedAdagrad.aggregate_fit super_aggregate_fit rnd results failures
            (p0 :: rest) self
          = (Return (Some weights), FedAdagrad.set_v_t (Some v) self)).
Proof.
  intros E1 Ea Ep El Hfit.
  destruct (aggregate_fit_first_tensor super_aggregate_fit self rnd results failures
              previous_weights fedavg_aggregate a0 p0 E1 Ea Ep El Hfit)
    as (w & v & Ecall & Lw & _ & Hrule).
  exists [w], w, v. split_and!; try reflexivity; try assumption.
  intros rest. rewrite <- Ecall. apply aggregate_fit_reads_first_tensor.
  rewrite Ep. reflexivity.
Qed.

Lemma aggregate_fit_updates_first_tensor_only_witness :
  exists (weights : Weights float) (w v : ndarray float),
    FedAdagrad.aggregate_fit (yields [[2]; [9; 9]]%float) 2 [] [] [[0]; [7; 7]]%float
      (FedAdagrad.set_v_t (Some [4%float]) fresh_FedAdagrad)
    = (Return (Some weights),
       FedAdagrad.set_v_t (Some v) (FedAdagrad.set_v_t (Some [4%float]) fresh_FedAdagrad))
    /\ weights = [w]
    /\ length weights = 1%nat
    /\ length w = 1%nat
    /\ (forall i p a,
          [0%float] !! i = Some p -> [2%float] !! i = Some a ->
          let d := subtract a p in
          let x := add 4%float (multiply d d) in
          v !! i = Some x
          /\ w !! i = Some (add p (divide (multiply 0.1%float d)
                                     (add (sqrt_ x) 1e-9%float))))
    /\ (forall rest,
          FedAdagrad.aggregate_fit (yields [[2]; [9; 9]]%float) 2 [] [] ([0%float] :: rest)
            (FedAdagrad.set_v_t (Some [4%float]) fresh_FedAdagrad)
          = (Return (Some weights),
             FedAdagrad.set_v_t (Some v)
               (FedAdagrad.set_v_t (Some [4%float]) fresh_FedAdagrad))).
Proof.
  refine (aggregate_fit_updates_first_tensor_only (yields [[2]; [9; 9]]%float)
            (FedAdagrad.set_v_t (Some [4%float]) fresh_FedAdagrad) 2 [] []
            [[0]; [7; 7]]%float [[2]; [9; 9]]%float [2%float] [0%float] _ _ _ _ _).
  - reflexivity.
  - reflexivity.
  - reflexivity.
  - reflexivity.
  - cbn. split; [reflexivity | lia].
Defined.

(** Against C4 as the specification has it: two tensors in, one tensor
    out. *)
Lemma aggregate_fit_drops_second_tensor :
  exists weights : Weights float,
    fst (FedAdagrad.aggregate_fit (yields [[2]; [2]]%float) 1 [] [] [[0]; [0]]%float
           fresh_FedAdagrad)
    = Return (Some weights)
    /\ length ([[0]; [0]]%float : Weights float) = 2%nat
    /\ length weights = 1%nat
    /\ weights !! 1%nat = None.
Proof.
  exists [[0 + 0.1 * 2 / (PrimFloat.sqrt 4 + 1e-9)]%float].
  split; [vm_compute; reflexivity |]. split_and!; reflexivity.
Qed.

(* ================================================================= *)
(** * Further properties of the two files *)

(** ** [aggregate_fit]: how a call can end *)

Section Outcomes.
Context {F : Type} `{Dtype F}.
Variable super_aggregate_fit : FedAdagrad.super_method F.

(** Line 84 raises [IndexError] or numpy's broadcasting error, nothing
    else. *)
Lemma aggregated_updates_raises (agg previous_weights : Weights F) (e : exn) :
  FedAdagrad.aggregated_updates agg previous_weights = Raise e ->
  e = IndexError "list index out of range" \/ e = broadcast_error.
Proof.
  unfold FedAdagrad.aggregated_updates, Py.bind, nd_sub, ufunc2.
  destruct (getitem agg 0) as [a | e1] eqn:Ea.
  - destruct (getitem previous_weights 0) as [p | e2] eqn:Ep.
    + destruct (broadcast subtract a p); intros E; [discriminate |].
      right. congruence.
    + intros E. left. injection E as <-. exact (getitem_raises _ _ _ Ep).
  - intros E. left. injection E as <-. exact (getitem_raises _ _ _ Ea).
Qed.

(** The test of line 88 raises numpy's ambiguity error, nothing else. *)
Lemma not_v_t_raises (v : option (ndarray F)) (e : exn) :
  FedAdagrad.not_v_t v = Raise e -> e = ambiguous_error.
Proof.
  destruct v as [[| x [| y a]] |]; cbn; intros E; try discriminate. congruence.
Qed.

(** Once the test of line 88 has returned, line 90 can add: the
    accumulator it reads is zeros shaped like [delta_t] or one element. *)
Lemma accumulate_returns (v : option (ndarray F)) (delta_t : ndarray F) (unset : bool) :
  FedAdagrad.not_v_t v = Return unset ->
  exists v',
    FedAdagrad.v_t_add (accumulator_read v delta_t unset)
      (zip_with multiply delta_t delta_t) = Return v'
    /\ length v' = length delta_t.
Proof.
  assert (Lz : length (np_zeros_like delta_t) = length (zip_with multiply delta_t delta_t)).
  { unfold np_zeros_like. rewrite length_zip_with, length_fmap. lia. }
  assert (Hz : exists v',
             FedAdagrad.v_t_add (Some (np_zeros_like delta_t))
               (zip_with multiply delta_t delta_t) = Return v'
             /\ length v' = length delta_t).
  { eexists. split; [apply ufunc2_same_length; exact Lz |].
    unfold np_zeros_like. rewrite !length_zip_with, length_fmap. lia. }
  destruct v as [[| x [| y a]] |]; cbn; intros E; try discriminate;
    injection E as <-; try exact Hz.
  destruct (nonzero x); cbn; [| exact Hz].
  unfold nd_add, ufunc2, broadcast.
  case_decide as El; (eexists; split; [reflexivity |]).
  - rewrite length_zip_with in El. rewrite !length_zip_with.
    cbn [length] in *. lia.
  - rewrite length_fmap, length_zip_with. lia.
Qed.

(** Line 93 can be computed for every accumulator of [delta_t]'s length. *)
Lemma updated_weights_returns (self : FedAdagrad.t F) (agg previous_weights : Weights F)
    (delta_t v : ndarray F) :
  FedAdagrad.aggregated_updates agg previous_weights = Return delta_t ->
  length v = length delta_t ->
  exists w,
    FedAdagrad.updated_weights previous_weights delta_t (FedAdagrad.set_v_t (Some v) self)
    = Return w
    /\ length w = length delta_t.
Proof.
  intros E2 Lv.
  unfold FedAdagrad.aggregated_updates, Py.bind in E2.
  destruct (getitem agg 0) as [a |]; [| discriminate].
  unfold FedAdagrad.updated_weights, Py.bind.
  destruct (getitem previous_weights 0) as [p |]; [| discriminate].
  cbn. unfold nd_truediv. rewrite ufunc2_same_length.
  2:{ unfold scalar_mul, add_scalar, np_sqrt. rewrite !length_fmap. lia. }
  unfold nd_sub, ufunc2 in E2.
  destruct (broadcast subtract a p) as [d |] eqn:Ed; [| discriminate].
  injection E2 as ->.
  destruct (broadcast_back subtract add a p delta_t
              (zip_with divide (scalar_mul (FedAdagrad.eta self) delta_t)
                 (add_scalar (np_sqrt v) (FedAdagrad.tau self))) Ed) as (w & Ew & Lw).
  { unfold scalar_mul, add_scalar, np_sqrt.
    rewrite length_zip_with, !length_fmap. lia. }
  exists w. unfold nd_add, ufunc2. rewrite Ew. split; [reflexivity | exact Lw].
Qed.

(** A call that gets past line 88 returns. *)
Lemma aggregate_fit_after_test self rnd results failures previous_weights
    agg delta_t unset :
  super_aggregate_fit self rnd results failures = Return (Some agg) ->
  FedAdagrad.aggregated_updates agg previous_weights = Return delta_t ->
  FedAdagrad.not_v_t (FedAdagrad.v_t self) = Return unset ->
  exists w v,
    FedAdagrad.aggregate_fit super_aggregate_fit rnd results failures previous_weights self
    = (Return (Some [w]), FedAdagrad.set_v_t (Some v) self)
    /\ length w = length delta_t
    /\ length v = length delta_t.
Proof.
  intros E1 E2 E3.
  destruct (accumulate_returns _ delta_t _ E3) as (v & Ev & Lv).
  destruct (updated_weights_returns self agg previous_weights delta_t v E2 Lv)
    as (w & Ew & Lw).
  exists w, v. split_and!; try assumption.
  apply aggregate_fit_returns
    with (agg := agg) (delta_t := delta_t) (unset := unset)
         (d2 := zip_with multiply delta_t delta_t); try assumption.
  apply ufunc2_same_length. reflexivity.
Qed.

(** The ways a call can end, by what the inherited aggregation, line 84 and
    line 88 do. *)
Lemma aggregate_fit_cases self rnd results failures previous_weights :
  let call := FedAdagrad.aggregate_fit super_aggregate_fit rnd results failures
                previous_weights self in
  (exists e, super_aggregate_fit self rnd results failures = Raise e
             /\ call = (Raise e, self))
  \/ (super_aggregate_fit self rnd results failures = Return None
      /\ call = (Return None, self))
  \/ (exists agg e,
        super_aggregate_fit self rnd results failures = Return (Some agg)
        /\ FedAdagrad.aggregated_updates agg previous_weights = Raise e
        /\ call = (Raise e, self))
  \/ (exists agg delta_t e,
        super_aggregate_fit self rnd results failures = Return (Some agg)
        /\ FedAdagrad.aggregated_updates agg previous_weights = Return delta_t
        /\ FedAdagrad.not_v_t (FedAdagrad.v_t self) = Raise e
        /\ call = (Raise e, self))
  \/ (exists agg delta_t unset w v,
        super_aggregate_fit self rnd results failures = Return (Some agg)
        /\ FedAdagrad.aggregated_updates agg previous_weights = Return delta_t
        /\ FedAdagrad.not_v_t (FedAdagrad.v_t self) = Return unset
        /\ call = (Return (Some [w]), FedAdagrad.set_v_t (Some v) self)
        /\ length w = length delta_t
        /\ length v = length delta_t).
Proof.
  intros call. unfold call.
  destruct (super_aggregate_fit self rnd results failures) as [[agg |] | e] eqn:E1.
  - destruct (FedAdagrad.aggregated_updates agg previous_weights) as [delta_t | e] eqn:E2.
    + destruct (FedAdagrad.not_v_t (FedAdagrad.v_t self)) as [unset | e] eqn:E3.
      * do 4 right.
        destruct (aggregate_fit_after_test self rnd results failures previous_weights
                    agg delta_t unset E1 E2 E3) as (w & v & Ec & Lw & Lv).
        exists agg, delta_t, unset, w, v. split_and!; try assumption; reflexivity.
      * do 3 right. left. exists agg, delta_t, e.
        split_and!; try assumption; try reflexivity.
        apply aggregate_fit_test_raises with (agg := agg) (delta_t := delta_t);
          assumption.
    + do 2 right. left. exists agg, e. split_and!; try assumption; try reflexivity.
      apply aggregate_fit_updates_raise with (agg := agg); assumption.
  - right. left. split; [reflexivity |]. apply aggregate_fit_no_result. exact E1.
  - left. exists e. split; [reflexivity |]. apply aggregate_fit_super_raises. exact E1.
Qed.

End Outcomes.

(** X1. All or nothing: a call either returns a list of one tensor and
    changes [v_t] alone, to an array as long as that tensor, or it leaves
    the object exactly as it found it, returning [None] or raising. *)
Theorem aggregate_fit_all_or_nothing {F : Type} `{Dtype F}
    (super_aggregate_fit : FedAdagrad.super_method F) (self : FedAdagrad.t F) (rnd : Z)
    (results : list (ClientProxy * FitRes F)) (failures : list BaseException)
    (previous_weights : Weights F) :
  let call := FedAdagrad.aggregate_fit super_aggregate_fit rnd results failures
                previous_weights self in
  (exists w v,
      call = (Return (Some [w]), FedAdagrad.set_v_t (Some v) self)
      /\ length v = length w)
  \/ (snd call = self
      /\ (fst call = Return None \/ exists e, fst call = Raise e)).
Proof.
  intros call.
  destruct (aggregate_fit_cases super_aggregate_fit self rnd results failures
              previous_weights)
    as [(e & _ & Ec) | [(_ & Ec) | [(agg & e & _ & _ & Ec)
       | [(agg & d & e & _ & _ & _ & Ec) | (agg & d & u & w & v & _ & _ & _ & Ec & Lw & Lv)]]]];
    fold call in Ec.
  - right. rewrite Ec. split; [reflexivity | right; eauto].
  - right. rewrite Ec. split; [reflexivity | left; reflexivity].
  - right. rewrite Ec. split; [reflexivity | right; eauto].
  - right. rewrite Ec. split; [reflexivity | right; eauto].
  - left. exists w, v. split; [exact Ec | congruence].
Qed.

(** X2. The exceptions of a call: the one the inherited aggregation raised,
    [IndexError] from a subscript of line 84, or one of numpy's two
    [ValueError]s (operands that do not broadcast on line 84, an ambiguous
    truth value on line 88). In particular no [TypeError] comes from adding
    to an unset accumulator. *)
Theorem aggregate_fit_exceptions {F : Type} `{Dtype F}
    (super_aggregate_fit : FedAdagrad.super_method F) (self : FedAdagrad.t F) (rnd : Z)
    (results : list (ClientProxy * FitRes F)) (failures : list BaseException)
    (previous_weights : Weights F) (e : exn) :
  fst (FedAdagrad.aggregate_fit super_aggregate_fit rnd results failures
         previous_weights self) = Raise e ->
  super_aggregate_fit self rnd results failures = Raise e
  \/ e = IndexError "list index out of range"
  \/ e = broadcast_error
  \/ e = ambiguous_error.
Proof.
  intros E.
  destruct (aggregate_fit_cases super_aggregate_fit self rnd results failures
              previous_weights)
    as [(e' & Es & Ec) | [(_ & Ec) | [(agg & e' & _ & Eu & Ec)
       | [(agg & d & e' & _ & _ & Et & Ec) | (agg & d & u & w & v & _ & _ & _ & Ec & _)]]]];
    cbv zeta in Ec; rewrite Ec in E; cbn in E; try discriminate;
    injection E as <-.
  - left. exact Es.
  - right. destruct (aggregated_updates_raises _ _ _ Eu) as [-> | ->]; auto.
  - do 3 right. exact (not_v_t_raises _ _ Et).
Qed.

Lemma aggregate_fit_exceptions_witness :
  yields [[2; 2]%float] (FedAdagrad.set_v_t (Some [4; 4]%float) fresh_FedAdagrad) 2%Z [] []
  = Raise ambiguous_error
  \/ ambiguous_error = IndexError "list index out of range"
  \/ ambiguous_error = broadcast_error
  \/ ambiguous_error = ambiguous_error.
Proof.
  apply (aggregate_fit_exceptions (yields [[2; 2]%float])
           (FedAdagrad.set_v_t (Some [4; 4]%float) fresh_FedAdagrad) 2 [] []
           [[0; 0]%float] ambiguous_error).
  vm_compute. reflexivity.
Defined.

(** X3. A call returns parameters exactly when the inherited aggregation
    yields a result, line 84 can be computed and the accumulator has a truth
    value: lines 90 to 94 never raise. *)
Theorem aggregate_fit_returns_iff {F : Type} `{Dtype F}
    (super_aggregate_fit : FedAdagrad.super_method F) (self : FedAdagrad.t F) (rnd : Z)
    (results : list (ClientProxy * FitRes F)) (failures : list BaseException)
    (previous_weights : Weights F) :
  (exists weights,
      fst (FedAdagrad.aggregate_fit super_aggregate_fit rnd results failures
             previous_weights self) = Return (Some weights))
  <-> (exists agg delta_t unset,
          super_aggregate_fit self rnd results failures = Return (Some agg)
          /\ FedAdagrad.aggregated_updates agg previous_weights = Return delta_t
          /\ FedAdagrad.not_v_t (FedAdagrad.v_t self) = Return unset).
Proof.
  split.
  - intros [weights E].
    destruct (aggregate_fit_cases super_aggregate_fit self rnd results failures
                previous_weights)
      as [(e' & _ & Ec) | [(_ & Ec) | [(agg & e' & _ & _ & Ec)
         | [(agg & d & e' & _ & _ & _ & Ec) | (agg & d & u & w & v & E1 & E2 & E3 & _)]]]];
      try (cbv zeta in Ec; rewrite Ec in E; discriminate).
    exists agg, d, u. auto.
  - intros (agg & d & u & E1 & E2 & E3).
    destruct (aggregate_fit_after_test super_aggregate_fit self rnd results failures
                previous_weights agg d u E1 E2 E3) as (w & v & Ec & _).
    exists [w]. rewrite Ec. reflexivity.
Qed.

(** ** What a call leaves alone *)

(** [__repr__] tells two objects apart by [accept_failures] and by nothing
    else. *)
Lemma repr_accept_failures {F : Type} (self self' : FedAdagrad.t F) :
  FedAdagrad.repr self = FedAdagrad.repr self'
  <-> FedAdagrad.accept_failures self = FedAdagrad.accept_failures self'.
Proof.
  unfold FedAdagrad.repr. split.
  - destruct (FedAdagrad.accept_failures self), (FedAdagrad.accept_failures self');
      intros E; try reflexivity; discriminate E.
  - intros ->. reflexivity.
Qed.

(** X4. Whatever the call and however it ends, the object afterwards is the
    object before with at most [v_t] changed; an accumulator that was set
    stays set; and [__repr__], which prints [accept_failures] only, gives
    the same string before and after. *)
Theorem aggregate_fit_frame {F : Type} `{Dtype F}
    (super_aggregate_fit : FedAdagrad.super_method F) (self : FedAdagrad.t F) (rnd : Z)
    (results : list (ClientProxy * FitRes F)) (failures : list BaseException)
    (previous_weights : Weights F) :
  let self' := snd (FedAdagrad.aggregate_fit super_aggregate_fit rnd results failures
                      previous_weights self) in
  self' = FedAdagrad.set_v_t (FedAdagrad.v_t self') self
  /\ (is_Some (FedAdagrad.v_t self) -> is_Some (FedAdagrad.v_t self'))
  /\ FedAdagrad.repr self' = FedAdagrad.repr self
  /\ (FedAdagrad.repr self' = "FedAdagrad(accept_failures=True)"
      \/ FedAdagrad.repr self' = "FedAdagrad(accept_failures=False)").
Proof.
  intros self'.
  assert (Hself : self' = FedAdagrad.set_v_t (FedAdagrad.v_t self') self
                  /\ (is_Some (FedAdagrad.v_t self) -> is_Some (FedAdagrad.v_t self'))).
  { destruct (aggregate_fit_cases super_aggregate_fit self rnd results failures
                previous_weights)
      as [(e & _ & Ec) | [(_ & Ec) | [(agg & e & _ & _ & Ec)
         | [(agg & d & e & _ & _ & _ & Ec) | (agg & d & u & w & v & _ & _ & _ & Ec & _)]]]];
      cbv zeta in Ec; unfold self'; rewrite Ec; cbn [snd];
      try (split; [destruct self; reflexivity | tauto]).
    cbn. split; [reflexivity | eauto]. }
  destruct Hself as [Hself Hset]. split_and!; try assumption.
  - apply repr_accept_failures. rewrite Hself. reflexivity.
  - unfold FedAdagrad.repr. destruct (FedAdagrad.accept_failures self'); auto.
Qed.

(** X5. The call reads the aggregate and [previous_weights] at index 0 and
    nowhere else: two calls whose aggregates agree on the first tensor and
    whose [previous_weights] agree on the first tensor end the same way,
    whatever the other tensors are and however many there are. *)
Theorem aggregate_fit_reads_index_0_only {F : Type} `{Dtype F}
    (super super' : FedAdagrad.super_method F) (self : FedAdagrad.t F)
    (rnd rnd' : Z) (results results' : list (ClientProxy * FitRes F))
    (failures failures' : list BaseException)
    (agg agg' previous_weights previous_weights' : Weights F) :
  super self rnd results failures = Return (Some agg) ->
  super' self rnd' results' failures' = Return (Some agg') ->
  agg !! 0%nat = agg' !! 0%nat ->
  previous_weights !! 0%nat = previous_weights' !! 0%nat ->
  FedAdagrad.aggregate_fit super rnd results failures previous_weights self
  = FedAdagrad.aggregate_fit super' rnd' results' failures' previous_weights' self.
Proof.
  intros E1 E1' Ea Ep.
  unfold FedAdagrad.aggregate_fit, seq, expr, FedAdagrad.aggregated_updates,
    FedAdagrad.updated_weights, getitem.
  rewrite E1, E1', Ea, Ep. reflexivity.
Qed.

Lemma aggregate_fit_reads_index_0_only_witness :
  FedAdagrad.aggregate_fit (yields [[2]; [9; 9]]%float) 1 [] [] [[0]; [7; 7; 7]]%float
    fresh_FedAdagrad
  = FedAdagrad.aggregate_fit (yields [[2]]%float) 5 [] [ValueError "timeout"] [[0]]%float
      fresh_FedAdagrad.
Proof.
  apply (aggregate_fit_reads_index_0_only (yields [[2]; [9; 9]]%float) (yields [[2]]%float)
           fresh_FedAdagrad 1 5 [] [] [] [ValueError "timeout"]
           [[2]; [9; 9]]%float [[2]]%float [[0]; [7; 7; 7]]%float [[0]]%float);
    reflexivity.
Defined.

(** ** Rounds on a tensor of one element *)

Section OneElement.
Context {F : Type} `{Dtype F}.
Hypothesis false_adds_as_zero : forall x y : F,
  nonzero x = false -> add x (multiply y y) = add zero (multiply y y).

(** One round on an accumulator of one element. *)
Lemma one_element_round (super_aggregate_fit : FedAdagrad.super_method F)
    (self : FedAdagrad.t F) rnd results failures (a p x : F) :
  FedAdagrad.v_t self = Some [x] ->
  super_aggregate_fit self rnd results failures = Return (Some [[a]]) ->
  let d := subtract a p in
  let v := add x (multiply d d) in
  FedAdagrad.aggregate_fit super_aggregate_fit rnd results failures [[p]] self
  = (Return (Some [[add p (divide (multiply (FedAdagrad.eta self) d)
                             (add (sqrt_ v) (FedAdagrad.tau self)))]]),
     FedAdagrad.set_v_t (Some [v]) self).
Proof.
  intros Ev E1 d v.
  unfold FedAdagrad.aggregate_fit, seq, expr, assign, ret. rewrite E1. cbn.
  rewrite Ev. cbn. destruct (nonzero x) eqn:Ex; cbn.
  - rewrite Ev. reflexivity.
  - subst v. rewrite (false_adds_as_zero x d Ex). reflexivity.
Qed.

(** The first round on a fresh object. *)
Lemma one_element_first_round (super_aggregate_fit : FedAdagrad.super_method F)
    (self : FedAdagrad.t F) rnd results failures (a p : F) :
  FedAdagrad.v_t self = None ->
  super_aggregate_fit self rnd results failures = Return (Some [[a]]) ->
  let d := subtract a p in
  let v := add zero (multiply d d) in
  FedAdagrad.aggregate_fit super_aggregate_fit rnd results failures [[p]] self
  = (Return (Some [[add p (divide (multiply (FedAdagrad.eta self) d)
                             (add (sqrt_ v) (FedAdagrad.tau self)))]]),
     FedAdagrad.set_v_t (Some [v]) self).
Proof.
  intros Ev E1 d v.
  unfold FedAdagrad.aggregate_fit, seq, expr, assign, ret. rewrite E1. cbn.
  rewrite Ev. reflexivity.
Qed.

(** Rounds on an accumulator of one element, by induction on the rounds. *)
Lemma rounds_accumulate (rnd : Z) (calls : list (F * F)) :
  forall (self : FedAdagrad.t F) (x : F),
    FedAdagrad.v_t self = Some [x] ->
    let run :=
      rounds (map (fun c => FedAdagrad.aggregate_fit (yields [[fst c]]) rnd [] [] [[snd c]])
                calls) self in
    snd run
    = FedAdagrad.set_v_t
        (Some [accumulated x (map (fun c => subtract (fst c) (snd c)) calls)]) self
    /\ Forall (fun o => exists w, o = Return (Some [[w]])) (fst run)
    /\ length (fst run) = length calls.
Proof.
  induction calls as [| [a p] calls IH]; intros self x Ev; cbn.
  - split_and!; [| constructor | reflexivity].
    destruct self. cbn in Ev. subst. reflexivity.
  - rewrite (one_element_round (yields [[a]]) self rnd [] [] a p x Ev eq_refl).
    specialize (IH (FedAdagrad.set_v_t (Some [add x (multiply (subtract a p) (subtract a p))])
                      self) _ eq_refl).
    cbv zeta in IH.
    destruct (rounds _ _) as [os self'] eqn:Er.
    cbn in IH |- *. destruct IH as (Es & Ho & Hl).
    split_and!.
    + rewrite Es. reflexivity.
    + constructor; [eauto | exact Ho].
    + rewrite Hl. reflexivity.
Qed.

End OneElement.

(** *** The false values of binary64 *)

(** A value that rounding gives to a number of sign [sx] is never the zero
    of the other sign. *)
Lemma binary_round_aux_sign (prec emax : Z) (sx : bool) (mx ex : Z) (lx : location) :
  binary_round_aux prec emax sx mx ex lx <> S754_zero (negb sx).
Proof.
  unfold binary_round_aux.
  destruct (shr_fexp prec emax mx ex lx) as [mrs' e'].
  destruct (shr_fexp prec emax _ e' loc_Exact) as [mrs'' e''].
  destruct (shr_m mrs'') as [| m | m]; [| destruct (_ <=? _)%Z |];
    try discriminate. destruct sx; discriminate.
Qed.

(** A square is never [-0.0]. *)
Lemma SFmul_square_sign (prec emax : Z) (y : spec_float) :
  SFmul prec emax y y <> S754_zero true.
Proof.
  destruct y as [s | s | | s m e]; cbn [SFmul]; try discriminate.
  - destruct s; discriminate.
  - replace (xorb s s) with false by (destruct s; reflexivity).
    apply (binary_round_aux_sign prec emax false).
Qed.

(** The values that [bool] takes to [False] are [0.0] and [-0.0]. *)
Lemma float64_false_is_zero (x : float) :
  nonzero x = false -> exists s, Prim2SF x = S754_zero s.
Proof.
  cbn. intros Hx. apply negb_false_iff in Hx. revert Hx.
  rewrite FloatAxioms.eqb_spec. change (Prim2SF 0) with (S754_zero false).
  destruct (Prim2SF x) as [s | s | | s m e]; cbn; try discriminate; eauto.
  - destruct s; discriminate.
  - destruct s; discriminate.
Qed.

(** Added to a square, [0.0] and [-0.0] give the same sum. *)
Lemma float64_false_adds_as_zero (x y : float) :
  nonzero x = false -> add x (multiply y y) = add zero (multiply y y).
Proof.
  intros Hx. destruct (float64_false_is_zero x Hx) as [s Es].
  cbn. apply Prim2SF_inj.
  rewrite !FloatAxioms.add_spec, Es, FloatAxioms.mul_spec.
  change (Prim2SF 0) with (S754_zero false).
  pose proof (SFmul_square_sign prec emax (Prim2SF y)) as Hm.
  unfold SF64mul, SF64add.
  destruct (SFmul prec emax (Prim2SF y) (Prim2SF y)) as [sm | sm | | sm mm em];
    try reflexivity.
  destruct s, sm; try reflexivity. congruence.
Qed.

(** X9. In [float64], rounds on a fresh object with tensors of one element
    all return, and the accumulator ends as the sum of the squares of the
    rounds' [delta_t], added in order from zero, every operation the
    binary64 one. An accumulator that has become false ([0.0] or [-0.0])
    is replaced by zeros in the next round; no square is lost by it, the
    false values adding like [0.0] to a square. *)
Theorem accumulator_sums_squares (rnd : Z)
    (a p : float) (calls : list (float * float)) (self : FedAdagrad.t float) :
  FedAdagrad.v_t self = None ->
  let run :=
    rounds (map (fun c => FedAdagrad.aggregate_fit (yields [[fst c]]) rnd [] [] [[snd c]])
              ((a, p) :: calls)) self in
  snd run
  = FedAdagrad.set_v_t
      (Some [accumulated zero (map (fun c => subtract (fst c) (snd c)) ((a, p) :: calls))])
      self
  /\ Forall (fun o => exists w, o = Return (Some [[w]])) (fst run)
  /\ length (fst run) = S (length calls).
Proof.
  intros Ev. cbn [rounds map list_fmap fmap fst snd].
  rewrite (one_element_first_round (yields [[a]]) self rnd [] [] a p Ev eq_refl).
  pose proof (rounds_accumulate float64_false_adds_as_zero rnd calls
                (FedAdagrad.set_v_t
                   (Some [add zero (multiply (subtract a p) (subtract a p))]) self)
                _ eq_refl) as IH.
  cbv zeta in IH.
  destruct (rounds _ _) as [os self'] eqn:Er.
  cbn [fst snd] in IH |- *. destruct IH as (Es & Ho & Hl).
  split_and!.
  - rewrite Es. reflexivity.
  - constructor; [eauto | exact Ho].
  - cbn [length]. rewrite Hl. reflexivity.
Qed.

Lemma accumulator_sums_squares_witness :
  let calls := [(1, 1); (0, 3); (2, 0)]%float in
  let run :=
    rounds (map (fun c => FedAdagrad.aggregate_fit (yields [[fst c]]) 1 [] [] [[snd c]])
              calls) fresh_FedAdagrad in
  snd run
  = FedAdagrad.set_v_t
      (Some [accumulated zero (map (fun c => subtract (fst c) (snd c)) calls)])
      fresh_FedAdagrad
  /\ Forall (fun o => exists w, o = Return (Some [[w]])) (fst run)
  /\ length (fst run) = 3%nat.
Proof.
  exact (accumulator_sums_squares 1 1%float 1%float [(0, 3); (2, 0)]%float
           fresh_FedAdagrad eq_refl).
Defined.

(* ================================================================= *)
(** ** [main]: one strategy, then the server *)

(** [main] against the choice by name. *)
Lemma main_eval
    (server_setting : Server.ServerSetting) (trace : list Server.event) :
  Server.main server_setting trace
  = match Server.strategy_for server_setting with
    | Return s =>
        (Return tt,
         (trace ++ Server.setup_events
            ++ Server.server_events s (Server.rounds server_setting))%list)
    | Raise e => (Raise e, (trace ++ Server.setup_events)%list)
    end.
Proof.
  destruct server_setting as [s r d lr pu sf ms mn t ts im dy al].
  unfold Server.main, Server.strategy_for, Server.timeout_strategy, Server.missing_timeout,
    seq, Server.emit, assign, ret, raise.
  cbn [Server.strategy Server.rounds Server.sample_fraction Server.min_sample_size
       Server.min_num_clients Server.training_round_timeout
       Server.training_round_timeout_short Server.importance_sampling
       Server.dynamic_timeout Server.alternating_timeout].
  assert (Hdec : forall (a b : string) (T : Type) (x y : T),
             a = b -> (if bool_decide (a = b) then x else y) = x).
  { intros a b T x y E. rewrite bool_decide_eq_true_2 by exact E. reflexivity. }
  assert (Hndec : forall (a b : string) (T : Type) (x y : T),
             a <> b -> (if bool_decide (a = b) then x else y) = y).
  { intros a b T x y N. rewrite bool_decide_eq_false_2 by exact N. reflexivity. }
  destruct (decide (s = "fedavg")) as [-> | N1];
    [| destruct (decide (s = "fast-and-slow")) as [-> | N2];
       [| destruct (decide (s = "fedfs-v0")) as [-> | N3];
          [| destruct (decide (s = "fedfs-v1")) as [-> | N4];
             [| destruct (decide (s = "qffedavg")) as [-> | N5]]]]];
    destruct t;
    repeat (progress (rewrite ?Hdec by reflexivity;
                      rewrite ?Hndec by (discriminate || assumption); cbn));
    rewrite <- ?app_assoc; reflexivity.
Qed.

(** X10. The five independent [if] statements of [main] act as one choice
    by name, for settings whose timeout, if set, is below [2^53] in
    magnitude (where [0.5 * timeout] is exact). When the settings name a
    strategy and give it the timeout it needs, [main] returns having
    constructed exactly that one strategy, instantiated the server with it
    and started it with [server_setting.rounds]; otherwise it raises after
    the setup, with no strategy constructed and no server. The events
    already in the trace stay. *)
Theorem main_chooses_one_strategy
    (server_setting : Server.ServerSetting) (trace : list Server.event) :
  Server.timeout_exact server_setting ->
  Server.main server_setting trace
  = match Server.strategy_for server_setting with
    | Return s =>
        (Return tt,
         (trace ++ Server.setup_events
            ++ Server.server_events s (Server.rounds server_setting))%list)
    | Raise e => (Raise e, (trace ++ Server.setup_events)%list)
    end.
Proof. intros _. apply main_eval. Qed.

Lemma main_chooses_one_strategy_witness :
  Server.main (example_setting "fedfs-v0" (Some 7%Z)) []
  = (Return tt,
     (Server.setup_events
        ++ Server.server_events (Server.FedFSv0 0.5%float 2 2 1 1 4 7) 3)%list).
Proof.
  refine (main_chooses_one_strategy (example_setting "fedfs-v0" (Some 7%Z)) [] _).
  unfold Server.timeout_exact. cbn. lia.
Defined.

(** The strategy chosen, case by case. *)
Lemma strategy_for_cases (server_setting : Server.ServerSetting) :
  let name := Server.strategy server_setting in
  (name = "fedavg" /\ exists s, Server.strategy_for server_setting = Return s)
  \/ (name = "qffedavg" /\ exists s, Server.strategy_for server_setting = Return s)
  \/ ((name = "fast-and-slow" \/ name = "fedfs-v0" \/ name = "fedfs-v1")
      /\ ((exists t s, Server.training_round_timeout server_setting = Some t
                       /\ Server.strategy_for server_setting = Return s)
          \/ (Server.training_round_timeout server_setting = None
              /\ Server.strategy_for server_setting
                 = Raise (Server.missing_timeout name))))
  \/ (name <> "fedavg" /\ name <> "qffedavg" /\ name <> "fast-and-slow"
      /\ name <> "fedfs-v0" /\ name <> "fedfs-v1"
      /\ Server.strategy_for server_setting
         = Raise (UnboundLocalError "local variable 'strategy' referenced before assignment")).
Proof.
  destruct server_setting as [s r d lr pu sf ms mn t ts im dy al].
  unfold Server.strategy_for.
  cbn [Server.strategy Server.rounds Server.sample_fraction Server.min_sample_size
       Server.min_num_clients Server.training_round_timeout
       Server.training_round_timeout_short Server.importance_sampling
       Server.dynamic_timeout Server.alternating_timeout].
  destruct (decide (s = "fedavg")) as [-> | N1].
  { left. split; [reflexivity | eexists; reflexivity]. }
  rewrite (bool_decide_eq_false_2 _ N1).
  destruct (decide (s = "fast-and-slow")) as [-> | N2].
  { do 2 right. left. split; [auto |].
    destruct t; [left; eexists _, _; split; reflexivity | right; split; reflexivity]. }
  rewrite (bool_decide_eq_false_2 _ N2).
  destruct (decide (s = "fedfs-v0")) as [-> | N3].
  { do 2 right. left. split; [auto |].
    destruct t; [left; eexists _, _; split; reflexivity | right; split; reflexivity]. }
  rewrite (bool_decide_eq_false_2 _ N3).
  destruct (decide (s = "fedfs-v1")) as [-> | N4].
  { do 2 right. left. split; [auto |].
    destruct t; [left; eexists _, _; split; reflexivity | right; split; reflexivity]. }
  rewrite (bool_decide_eq_false_2 _ N4).
  destruct (decide (s = "qffedavg")) as [-> | N5].
  { right. left. split; [reflexivity | eexists; reflexivity]. }
  rewrite (bool_decide_eq_false_2 _ N5).
  do 3 right. split_and!; try assumption. reflexivity.
Qed.

(** X11. How [main] ends, read off the settings, for a timeout that, if
    set, is below [2^53] in magnitude (where [0.5 * timeout] is exact and
    cannot overflow): it returns exactly for ["fedavg"], for ["qffedavg"],
    and for the three timeout-dependent strategies when
    [training_round_timeout] is set; it raises [ValueError] exactly for
    those three without a timeout; and for every other name it raises
    [UnboundLocalError] at the first use of [strategy]. *)
Theorem main_returns_iff (server_setting : Server.ServerSetting)
    (trace : list Server.event) :
  Server.timeout_exact server_setting ->
  let name := Server.strategy server_setting in
  let timeout := Server.training_round_timeout server_setting in
  let needs_timeout :=
    name = "fast-and-slow" \/ name = "fedfs-v0" \/ name = "fedfs-v1" in
  let outcome := fst (Server.main server_setting trace) in
  (outcome = Return tt
   <-> name = "fedavg" \/ name = "qffedavg" \/ (needs_timeout /\ is_Some timeout))
  /\ ((exists msg, outcome = Raise (ValueError msg))
      <-> needs_timeout /\ timeout = None)
  /\ (outcome
      = Raise (UnboundLocalError "local variable 'strategy' referenced before assignment")
      <-> ~ (name = "fedavg" \/ name = "qffedavg" \/ needs_timeout)).
Proof.
  intros _. cbv zeta. rewrite main_eval.
  destruct (strategy_for_cases server_setting)
    as [(Hn & s & ->) | [(Hn & s & ->) | [(Hn & [(t & s & Ht & ->) | (Ht & ->)])
       | (N1 & N2 & N3 & N4 & N5 & ->)]]];
    cbv zeta in *; cbn [fst]; unfold Server.missing_timeout.
  - rewrite Hn. split_and!; split; intros Hx; try discriminate Hx; auto.
    + destruct Hx as [msg Hx]. discriminate Hx.
    + destruct Hx as [[Hx | [Hx | Hx]] _]; discriminate Hx.
    + exfalso. apply Hx. auto.
  - rewrite Hn. split_and!; split; intros Hx; try discriminate Hx; auto.
    + destruct Hx as [msg Hx]. discriminate Hx.
    + destruct Hx as [[Hx | [Hx | Hx]] _]; discriminate Hx.
    + exfalso. apply Hx. auto.
  - rewrite Ht. split_and!; split; intros Hx; try discriminate Hx; eauto.
    + destruct Hx as [msg Hx]. discriminate Hx.
    + destruct Hx as [_ Hx]. discriminate Hx.
    + exfalso. apply Hx. auto.
  - rewrite Ht. split_and!; split; intros Hx; try discriminate Hx; eauto.
    + destruct Hx as [Hx | [Hx | [_ [? Hx]]]]; try discriminate Hx;
        destruct Hn as [Hn | [Hn | Hn]]; rewrite Hn in Hx; discriminate Hx.
    + exfalso. apply Hx. auto.
  - split_and!; split; intros Hx; try discriminate Hx; try tauto.
    destruct Hx as [msg Hx]. discriminate Hx.
Qed.

Lemma main_returns_iff_witness :
  fst (Server.main (example_setting "fast-and-slow" (Some 7%Z)) []) = Return tt
  /\ fst (Server.main (example_setting "fedfs-v1" None) [])
     = Raise (ValueError "No `training_round_timeout` set for `fedfs-v1` strategy")
  /\ fst (Server.main (example_setting "fedopt" (Some 7%Z)) [])
     = Raise (UnboundLocalError "local variable 'strategy' referenced before assignment").
Proof.
  split_and!.
  - apply (main_returns_iff (example_setting "fast-and-slow" (Some 7%Z)) []).
    + unfold Server.timeout_exact. cbn. lia.
    + right. right. split; [left; reflexivity | eexists; reflexivity].
  - reflexivity.
  - apply (main_returns_iff (example_setting "fedopt" (Some 7%Z)) []).
    + unfold Server.timeout_exact. cbn. lia.
    + cbn. intros [E | [E | [E | [E | E]]]]; discriminate E.
Defined.

(** X12. For ["fast-and-slow"] and ["fedfs-v0"] with a timeout [t],
    [0 <= t < 2^53], and no short timeout in the settings, the strategy is
    constructed with [t_slow = t] and [t_fast] the half of [t] rounded up:
    [0 <= t_fast <= t_slow <= 2 * t_fast <= t_slow + 1]. *)
Theorem fast_timeout_is_half_of_slow (server_setting : Server.ServerSetting)
    (trace : list Server.event) (t : Z) :
  Server.strategy server_setting = "fast-and-slow"
  \/ Server.strategy server_setting = "fedfs-v0" ->
  Server.training_round_timeout server_setting = Some t ->
  Server.training_round_timeout_short server_setting = None ->
  (0 <= t < 2 ^ 53)%Z ->
  exists s t_fast,
    Server.main server_setting trace
    = (Return tt,
       (trace ++ Server.setup_events
          ++ Server.server_events s (Server.rounds server_setting))%list)
    /\ Server.strategy_timeouts s = Some (t_fast, t)
    /\ (0 <= t_fast <= t)%Z
    /\ (t <= 2 * t_fast <= t + 1)%Z.
Proof.
  intros Hs Ht Hshort Hrange. rewrite main_eval.
  destruct server_setting as [s r d lr pu sf ms mn to ts im dy al].
  cbn in Hs, Ht, Hshort. subst to ts.
  assert (Hhalf : (0 <= Server.ceil_half t <= t)%Z
                  /\ (t <= 2 * Server.ceil_half t <= t + 1)%Z).
  { unfold Server.ceil_half.
    pose proof (Z.div_mod (t + 1) 2) as Hq.
    pose proof (Z.mod_pos_bound (t + 1) 2) as Hr. lia. }
  destruct Hs as [-> | ->]; eexists _, (Server.ceil_half t);
    (split; [reflexivity |]); (split; [reflexivity |]); exact Hhalf.
Qed.

Lemma fast_timeout_is_half_of_slow_witness :
  exists s t_fast,
    Server.main (example_setting "fedfs-v0" (Some 7%Z)) []
    = (Return tt, ([] ++ Server.setup_events ++ Server.server_events s 3)%list)
    /\ Server.strategy_timeouts s = Some (t_fast, 7%Z)
    /\ (0 <= t_fast <= 7)%Z
    /\ (7 <= 2 * t_fast <= 7 + 1)%Z.
Proof.
  apply (fast_timeout_is_half_of_slow (example_setting "fedfs-v0" (Some 7%Z)) [] 7).
  - right. reflexivity.
  - reflexivity.
  - reflexivity.
  - lia.
Defined.

(** X13. The script re-raises what [main] raises: it ends as [main] ends;
    after an exception the trace is [main]'s followed by two ERROR records,
    the second with the exception's message, and holds no server event;
    after a return nothing is added. *)
Theorem script_reraises (server_setting : Server.ServerSetting)
    (trace : list Server.event) :
  fst (Server.script server_setting trace) = fst (Server.main server_setting trace)
  /\ match fst (Server.main server_setting trace) with
     | Return _ =>
         snd (Server.script server_setting trace)
         = snd (Server.main server_setting trace)
     | Raise err =>
         snd (Server.script server_setting trace)
         = (trace ++ Server.setup_events
              ++ [Server.ev_log "ERROR" "Fatal error in main";
                  Server.ev_log "ERROR" (exn_str err)])%list
         /\ Forall (fun e => Server.starts_server e = false)
              (drop (length trace) (snd (Server.script server_setting trace)))
     end.
Proof.
  unfold Server.script, catch. rewrite main_eval.
  destruct (Server.strategy_for server_setting) as [s | err]; cbn.
  - split; reflexivity.
  - unfold seq, Server.emit, assign, raise. cbn.
    split; [reflexivity |]. rewrite <- !app_assoc. split; [reflexivity |].
    rewrite drop_app_length. repeat constructor.
Qed.

(* ================================================================= *)
(** ** [fit_config]: the dictionary of a round *)

Section FitConfigFacts.
Variable float_str : float -> string.
Variables (lr_initial : float) (timeout : option Z) (partial_updates : bool).

(** The allocation and the assignment of [fit_config] in one step. *)
Lemma fit_config_eval (rnd : Z) (h : Server.heap) :
  Server.get_on_fit_config_fn float_str lr_initial timeout partial_updates rnd h
  = (Return (fresh (dom h)),
     <[fresh (dom h) := Server.config_of float_str lr_initial timeout partial_updates rnd]> h).
Proof.
  unfold Server.get_on_fit_config_fn, Server.config_of, seq, Server.new_dict,
    Server.setitem, assign, ret.
  destruct timeout; [rewrite alter_insert_eq |]; reflexivity.
Qed.

Lemma fit_config_returned (rnd : Z) (h : Server.heap) :
  Server.returned_dict
    (Server.get_on_fit_config_fn float_str lr_initial timeout partial_updates rnd h)
  = Some (Server.config_of float_str lr_initial timeout partial_updates rnd).
Proof.
  rewrite fit_config_eval. unfold Server.returned_dict. cbn. apply lookup_insert_eq.
Qed.

End FitConfigFacts.

(** X14. The dictionary of a round has the six keys of the literal, and
    ["timeout"] when a timeout was configured, and no other key; the batch
    size and the number of local epochs are the same in every round, and
    ["partial_updates"] is ["1"] exactly when partial updates are on. *)
Theorem fit_config_keys (float_str : float -> string) (lr_initial : float)
    (timeout : option Z) (partial_updates : bool) (rnd : Z) (h : Server.heap) :
  exists d : Server.dict,
    Server.returned_dict
      (Server.get_on_fit_config_fn float_str lr_initial timeout partial_updates rnd h)
    = Some d
    /\ dom d
       = ({["epoch_global"; "epochs"; "batch_size"; "lr_initial"; "lr_decay";
            "partial_updates"]} : gset string)
         ∪ match timeout with Some _ => {["timeout"]} | None => ∅ end
    /\ size d = match timeout with Some _ => 7%nat | None => 6%nat end
    /\ d !! "epochs" = Some (Server.PyStr "1")
    /\ d !! "batch_size" = Some (Server.PyStr "10")
    /\ d !! "lr_initial" = Some (Server.PyStr (float_str lr_initial))
    /\ (d !! "partial_updates" = Some (Server.PyStr "1") <-> partial_updates = true).
Proof.
  eexists. split; [apply fit_config_returned |].
  assert (Hdom : dom (Server.config_of float_str lr_initial timeout partial_updates rnd)
                 = ({["epoch_global"; "epochs"; "batch_size"; "lr_initial"; "lr_decay";
                      "partial_updates"]} : gset string)
                   ∪ match timeout with Some _ => {["timeout"]} | None => ∅ end).
  { unfold Server.config_of.
    destruct timeout; rewrite !dom_insert_L, dom_empty_L; set_solver. }
  split; [exact Hdom |]. split.
  { rewrite <- size_dom, Hdom. destruct timeout; vm_compute; reflexivity. }
  unfold Server.config_of.
  destruct timeout; split_and!; try reflexivity;
    destruct partial_updates; cbn; split; intros Hx; try reflexivity; discriminate Hx.
Qed.

(** X15. Between two rounds the dictionary differs in ["epoch_global"] and
    in nothing else (the learning rate sent is the same in every round),
    and two rounds get the same dictionary only if they are the same
    round. *)
Theorem fit_config_across_rounds (float_str : float -> string) (lr_initial : float)
    (timeout : option Z) (partial_updates : bool) (rnd rnd' : Z) (h h' : Server.heap) :
  exists d d' : Server.dict,
    Server.returned_dict
      (Server.get_on_fit_config_fn float_str lr_initial timeout partial_updates rnd h)
    = Some d
    /\ Server.returned_dict
         (Server.get_on_fit_config_fn float_str lr_initial timeout partial_updates rnd' h')
       = Some d'
    /\ delete "epoch_global" d = delete "epoch_global" d'
    /\ (d = d' <-> rnd = rnd').
Proof.
  eexists _, _. split; [apply fit_config_returned |].
  split; [apply fit_config_returned |].
  unfold Server.config_of. split.
  - destruct timeout.
    + rewrite !(delete_insert_ne _ "epoch_global" "timeout") by discriminate.
      rewrite !delete_insert_eq. reflexivity.
    + rewrite !delete_insert_eq. reflexivity.
  - split; [| intros ->; reflexivity].
    intros E.
    assert (El : forall m : Server.dict,
               (match timeout with
                | Some t => <["timeout" := Server.PyStr (Server.str float_str (Server.PyInt t))]> m
                | None => m
                end) !! "epoch_global" = m !! "epoch_global").
    { intros m. destruct timeout; [| reflexivity].
      apply lookup_insert_ne. discriminate. }
    apply (f_equal (fun m : Server.dict => m !! "epoch_global")) in E.
    cbv zeta in E. rewrite !El, !lookup_insert_eq in E.
    injection E as E. apply (inj pretty). exact E.
Qed.

(** X16. The closure keeps no dictionary of its own. Build the dictionary
    of one round, assign to any key of it, then build the dictionary of
    another round: the two are different objects, neither was on the heap
    before, the second is what the round gets on any heap, the first holds
    the assignment, and every object that was on the heap is as it was. *)
Theorem fit_config_dictionaries_are_separate (float_str : float -> string)
    (lr_initial : float) (timeout : option Z) (partial_updates : bool)
    (rnd rnd' : Z) (k : string) (v : Server.pyval) (h : Server.heap) :
  let fit_config :=
    Server.get_on_fit_config_fn float_str lr_initial timeout partial_updates in
  exists (config config' : Server.addr) (h' : Server.heap),
    (config <- fit_config rnd ;;
     Server.setitem config k v ;;;
     config' <- fit_config rnd' ;;
     ret (config, config')) h
    = (Return (config, config'), h')
    /\ config <> config'
    /\ h !! config = None
    /\ h !! config' = None
    /\ h' !! config' = Server.returned_dict (fit_config rnd' h)
    /\ h' !! config = insert k v <$> Server.returned_dict (fit_config rnd h)
    /\ forall a, is_Some (h !! a) -> h' !! a = h !! a.
Proof.
  intros fit_config. unfold fit_config.
  rewrite !fit_config_returned.
  unfold seq, Server.setitem, assign, ret.
  rewrite fit_config_eval. rewrite alter_insert_eq. rewrite fit_config_eval.
  set (d := Server.config_of float_str lr_initial timeout partial_updates rnd).
  set (d' := Server.config_of float_str lr_initial timeout partial_updates rnd').
  set (a := fresh (dom h)).
  set (h1 := <[a := <[k := v]> d]> h).
  set (a' := fresh (dom h1)).
  assert (Ha : h !! a = None).
  { apply not_elem_of_dom_1. apply is_fresh. }
  assert (Ha' : h1 !! a' = None).
  { apply not_elem_of_dom_1. apply is_fresh. }
  assert (Hne : a <> a').
  { intros E. rewrite <- E in Ha'. unfold h1 in Ha'.
    rewrite lookup_insert_eq in Ha'. discriminate Ha'. }
  assert (Ha'h : h !! a' = None).
  { unfold h1 in Ha'. rewrite lookup_insert_ne in Ha' by exact Hne. exact Ha'. }
  exists a, a', (<[a' := d']> h1). split_and!; try assumption; try reflexivity.
  - apply lookup_insert_eq.
  - rewrite lookup_insert_ne by (intros E; apply Hne; symmetry; exact E).
    unfold h1. rewrite lookup_insert_eq. reflexivity.
  - intros b [x Hb].
    rewrite lookup_insert_ne by (intros E; rewrite <- E, Ha'h in Hb; discriminate Hb).
    unfold h1.
    rewrite lookup_insert_ne by (intros E; rewrite <- E, Ha in Hb; discriminate Hb).
    reflexivity.
Qed.
